(** * Lifecycle handlers of the HuaweiCloud provider: a shallow embedding

    The handlers of the DMS maintenance-window data source, of the CCE
    cluster resource and of the VPC resource are embedded as
    state-passing functions.  The state holds the local record
    ([schema.ResourceData]) and the history of calls made to the cloud;
    the cloud itself is a parameter that answers every call as a function
    of that history, so any upstream behaviour can be plugged in.  A run
    that dereferences a nil pointer has no result ([None]). *)

From stdpp Require Import gmap strings list pretty.

Open Scope Z_scope.
Open Scope string_scope.

(** ** Errors *)

(** The error values the handlers can see or build.  [fmt.Errorf] yields a
    plain error; it is kept structured here: the format string, its string
    arguments in order and, for [ErrorfWrap], the error argument (always
    the last one in this code). *)
Inductive error : Type :=
| ErrDefault404 (body : string)
| ErrUnexpectedResponseCode (Actual : Z)
| ErrUpstream (msg : string)
| Errorf (format : string) (strs : list string)
| ErrorfWrap (format : string) (strs : list string) (cause : error)
| TimeoutError (lastState : string)
| UnexpectedStateError (state : string) (expected : list string).

(** [_, ok := err.(golangsdk.ErrDefault404)] *)
Definition isErrDefault404 (e : error) : bool :=
  match e with ErrDefault404 _ => true | _ => false end.

(** [errCode, ok := err.(golangsdk.ErrUnexpectedResponseCode)] *)
Definition asErrUnexpectedResponseCode (e : error) : option Z :=
  match e with ErrUnexpectedResponseCode a => Some a | _ => None end.

(** A Go result pair of a pointer and an error: the pointer may be nil. *)
Definition result (A : Type) : Type := (option A * option error)%type.

(** ** The local record *)

Inductive Value : Type :=
| VInt (z : Z)
| VString (s : string)
| VBool (b : bool)
| VMap (m : gmap string string)
| VList (l : list (gmap string string)).

Record ResourceData : Type := mkResourceData {
  Id : string;
  attrs : gmap string Value;
  changed : gset string
}.

(** [d.Get(k).(int)] and its siblings: an unset key reads as the zero
    value of its schema type. *)
Definition GetInt (d : ResourceData) (k : string) : Z :=
  match attrs d !! k with Some (VInt z) => z | _ => 0 end.
Definition GetString (d : ResourceData) (k : string) : string :=
  match attrs d !! k with Some (VString s) => s | _ => "" end.
Definition GetBool (d : ResourceData) (k : string) : bool :=
  match attrs d !! k with Some (VBool b) => b | _ => false end.
Definition GetMap (d : ResourceData) (k : string) : gmap string string :=
  match attrs d !! k with Some (VMap m) => m | _ => ∅ end.

Definition isZeroValue (v : Value) : bool :=
  match v with
  | VInt z => bool_decide (z = 0)
  | VString s => bool_decide (s = "")
  | VBool b => negb b
  | VMap m => bool_decide (m = ∅)
  | VList l => bool_decide (l = [])
  end.

(** [v, ok := d.GetOk(k)]: [ok] only for a value that is set and not the
    zero value. *)
Definition GetOk (d : ResourceData) (k : string) : option Value :=
  match attrs d !! k with
  | Some v => if isZeroValue v then None else Some v
  | None => None
  end.

Definition HasChange (d : ResourceData) (k : string) : bool :=
  bool_decide (k ∈ changed d).

(** ** Calls to the cloud *)

Inductive Service : Type := DmsV1 | NetworkingV1 | NetworkingV2 | CceV3.

Record MaintainWindow : Type := mkMaintainWindow {
  mwID : Z;
  mwBegin : string;
  mwEnd : string;
  mwDefault : bool
}.

Record GetResponse : Type := mkGetResponse {
  MaintainWindows : list MaintainWindow
}.

Record Route : Type := mkRoute {
  DestinationCIDR : string;
  NextHop : string
}.

Record Vpc : Type := mkVpc {
  vpcID : string;
  vpcName : string;
  vpcCIDR : string;
  vpcStatus : string;
  EnableSharedSnat : bool;
  Routes : list Route
}.

Record VpcCreateOpts : Type := mkVpcCreateOpts {
  vcName : string;
  vcCIDR : string
}.

Record VpcUpdateOpts : Type := mkVpcUpdateOpts {
  vuName : string;
  vuCIDR : string
}.

Record ResourceTag : Type := mkResourceTag {
  tagKey : string;
  tagValue : string
}.

Record ResourceTags : Type := mkResourceTags {
  Tags : list ResourceTag
}.

Record Clusters : Type := mkClusters {
  MetadataId : string;
  MetadataName : string;
  StatusPhase : string;
  SpecFlavor : string;
  SpecVersion : string;
  SpecType : string;
  SpecDescription : string;
  SpecBillingMode : Z;
  HostVpcId : string;
  HostSubnetId : string;
  HostHighwaySubnet : string;
  ContainerMode : string;
  ContainerCidr : string;
  AuthenticationMode : string
}.

Record ClusterCreateOpts : Type := mkClusterCreateOpts {
  ccKind : string;
  ccApiVersion : string;
  ccName : string;
  ccLabels : gmap string string;
  ccAnnotations : gmap string string;
  ccType : string;
  ccFlavor : string;
  ccVersion : string;
  ccDescription : string;
  ccVpcId : string;
  ccSubnetId : string;
  ccHighwaySubnet : string;
  ccContainerMode : string;
  ccContainerCidr : string;
  ccAuthMode : string;
  ccAuthenticatingProxy : gmap string string;
  ccBillingMode : Z;
  ccExtendParam : gmap string string
}.

Record ClusterUpdateOpts : Type := mkClusterUpdateOpts {
  cuDescription : string
}.

Record CertCluster : Type := mkCertCluster {
  certClusterName : string;
  Server : string;
  CertAuthorityData : string
}.

Record CertUser : Type := mkCertUser {
  certUserName : string;
  ClientCertData : string;
  ClientKeyData : string
}.

Record Certificate : Type := mkCertificate {
  certClusters : list CertCluster;
  certUsers : list CertUser
}.

(** One entry per request sent to the cloud.  [CallTagsUpdate] stands for
    the requests of the helper [UpdateResourceTags], taken as one. *)
Inductive Call : Type :=
| CallMaintainWindowsGet
| CallVpcCreate (opts : VpcCreateOpts)
| CallVpcGet (id : string)
| CallVpcUpdate (id : string) (opts : VpcUpdateOpts)
| CallVpcDelete (id : string)
| CallTagsCreate (id : string) (taglist : list ResourceTag)
| CallTagsGet (id : string)
| CallTagsUpdate (id : string)
| CallClusterCreate (opts : ClusterCreateOpts)
| CallClusterGet (id : string)
| CallClusterGetCert (id : string)
| CallClusterUpdate (id : string) (opts : ClusterUpdateOpts)
| CallClusterDelete (id : string).

(** What surrounds the handlers: the provider configuration (client
    construction, region, how many polls fit in each timeout), the
    provider helpers that live in other files ([expandResourceTags],
    [tagsToMap], [hasFilledOpt]) and the cloud, whose every answer may
    depend on all the calls made so far. *)
Record World : Type := mkWorld {
  clientErr : Service → option error;
  configRegion : string;
  createPolls : nat;
  deletePolls : nat;
  expandResourceTags : gmap string string → list ResourceTag;
  tagsToMap : list ResourceTag → gmap string string;
  hasFilledOpt : ResourceData → string → bool;
  onMaintainWindowsGet : list Call → result GetResponse;
  onVpcCreate : list Call → VpcCreateOpts → result Vpc;
  onVpcGet : list Call → string → result Vpc;
  onVpcUpdate : list Call → string → VpcUpdateOpts → result Vpc;
  onVpcDelete : list Call → string → option error;
  onTagsCreate : list Call → string → list ResourceTag → option error;
  onTagsGet : list Call → string → result ResourceTags;
  onTagsUpdate : list Call → ResourceData → option error;
  onClusterCreate : list Call → ClusterCreateOpts → result Clusters;
  onClusterGet : list Call → string → result Clusters;
  onClusterGetCert : list Call → string → result Certificate;
  onClusterUpdate : list Call → string → ClusterUpdateOpts → result Clusters;
  onClusterDelete : list Call → string → option error
}.

(** ** The handler monad *)

Record State : Type := mkState {
  rd : ResourceData;
  calls : list Call
}.

(** A handler run: [None] is a runtime panic (nil dereference, index out
    of range); otherwise the result and the state left behind. *)
Definition M (A : Type) : Type := State → option (A * State).

Definition ret {A} (a : A) : M A := λ st, Some (a, st).

Definition bind {A B} (m : M A) (k : A → M B) : M B :=
  λ st, match m st with
        | Some (a, st') => k a st'
        | None => None
        end.

Definition panic {A} : M A := λ _, None.

Notation "'let!' x ':=' c 'in' k" := (bind c (λ x, k))
  (at level 10, x pattern, c at level 100, k at level 200).

(** [p.field] on a pointer [p]. *)
Definition deref {A} (p : option A) : M A :=
  match p with Some a => ret a | None => panic end.

Definition getData : M ResourceData := λ st, Some (rd st, st).

Definition SetId (id : string) : M unit :=
  λ st, Some (tt, mkState (mkResourceData id (attrs (rd st)) (changed (rd st)))
                          (calls st)).

(** [d.Set(k, v)]; every value written by the handlers has the type the
    schema declares for its key, so the writer never rejects it. *)
Definition Set_ (k : string) (v : Value) : M (option error) :=
  λ st, Some (None, mkState (mkResourceData (Id (rd st)) (<[k:=v]> (attrs (rd st)))
                                            (changed (rd st)))
                            (calls st)).

(** Sending a request: the answer is read off the history, then the
    request is appended to it. *)
Definition call {A} (c : Call) (answer : list Call → A) : M A :=
  λ st, Some (answer (calls st), mkState (rd st) (calls st ++ [c])).

(** [GetRegion(d, config)] *)
Definition GetRegion (w : World) (d : ResourceData) : string :=
  match GetOk d "region" with
  | Some (VString s) => s
  | _ => configRegion w
  end.

(** Runs [k] unless [m] already returned an error. *)
Definition orElse (m : M (option error)) (k : M (option error)) : M (option error) :=
  let! r := m in
  match r with
  | Some e => ret (Some e)
  | None => k
  end.

(** ** The state-change waiter *)

(** What a refresh function hands back as its first component: an
    interface value, nil or a typed pointer (itself possibly nil). *)
Inductive iface : Type :=
| ifaceNil
| ifaceVpc (p : option Vpc)
| ifaceClusters (p : option Clusters).

Definition RefreshResult : Type := (iface * string * option error)%type.

Record StateChangeConf : Type := mkStateChangeConf {
  Pending : list string;
  Target : list string;
  Refresh : M RefreshResult;
  Timeout : nat
}.

(** Modelled from the spec: the plugin SDK's [WaitForState], which is
    outside the sources.  It queries the refresh function again and again
    until the observed status is a target (success), the refresh fails or
    reports a status that is neither pending nor target (fatal), or the
    timeout elapses (fatal).  The timeout is counted in polls; [last] is
    the last status seen. *)
Fixpoint waitLoop (conf : StateChangeConf) (polls : nat) (last : string)
  : M (option error) :=
  match polls with
  | O => ret (Some (TimeoutError last))
  | S polls' =>
      let! r := Refresh conf in
      match r with
      | (_, _, Some e) => ret (Some e)
      | (_, currentState, None) =>
          if bool_decide (currentState ∈ Target conf) then ret None
          else if bool_decide (currentState ∈ Pending conf)
               then waitLoop conf polls' currentState
               else ret (Some (UnexpectedStateError currentState (Target conf)))
      end
  end.

Definition WaitForState (conf : StateChangeConf) : M (option error) :=
  waitLoop conf (Timeout conf) "".

(** [k] polls in a row that each report a pending status without error:
    from state [st], where [last] was the last status seen, to state
    [st'], where [last'] is. *)
Inductive pendingPolls (conf : StateChangeConf)
  : nat → string → State → string → State → Prop :=
| pendingPolls_O last st : pendingPolls conf O last st last st
| pendingPolls_S k last st v s st1 last' st' :
    Refresh conf st = Some ((v, s, None), st1) →
    s ∉ Target conf →
    s ∈ Pending conf →
    pendingPolls conf k s st1 last' st' →
    pendingPolls conf (S k) last st last' st'.

Section Handlers.

Variable w : World.

(** ** Data source: DMS maintenance window *)

(** One turn of the filter loop: [false] where the body reaches a
    [continue], [true] where it reaches the [append]. *)
Definition keepMV (d : ResourceData) (mv : MaintainWindow) : bool :=
  let seq := GetInt d "seq" in
  if bool_decide (seq ≠ 0) && bool_decide (mwID mv ≠ seq) then false else
  let begin := GetString d "begin" in
  if bool_decide (begin ≠ "") && bool_decide (mwBegin mv ≠ begin) then false else
  let end_ := GetString d "end" in
  if bool_decide (end_ ≠ "") && bool_decide (mwEnd mv ≠ end_) then false else
  let df := GetBool d "default" in
  if bool_decide (mwDefault mv ≠ df) then false else
  true.

Fixpoint filterLoop (d : ResourceData) (maintainWindows filteredMVs : list MaintainWindow)
  : list MaintainWindow :=
  match maintainWindows with
  | [] => filteredMVs
  | mv :: rest =>
      if keepMV d mv then filterLoop d rest (filteredMVs ++ [mv])
      else filterLoop d rest filteredMVs
  end.

(** [filteredMVs[0]] *)
Definition index0 {A} (l : list A) : M A :=
  match l with a :: _ => ret a | [] => panic end.

Definition noResults : error :=
  Errorf "Your query returned no results. Please change your filters and try again." [].

Definition dataSourceDmsMaintainWindowV1Read : M (option error) :=
  match clientErr w DmsV1 with
  | Some e => ret (Some (ErrorfWrap "Error creating HuaweiCloud dms client: %s" [] e))
  | None =>
      let! (v, err) := call CallMaintainWindowsGet (onMaintainWindowsGet w) in
      match err with
      | Some e => ret (Some e)
      | None =>
          let! v := deref v in
          let! d := getData in
          let filteredMVs := filterLoop d (MaintainWindows v) [] in
          if bool_decide (length filteredMVs < 1)%nat then ret (Some noResults)
          else
            let! mw := index0 filteredMVs in
            let! _ := SetId (pretty (mwID mw)) in
            let! _ := Set_ "begin" (VString (mwBegin mw)) in
            let! _ := Set_ "end" (VString (mwEnd mw)) in
            let! _ := Set_ "default" (VBool (mwDefault mw)) in
            ret None
      end
  end.

(** ** Resource: virtual private cloud *)

Definition waitForVpcActive (vpcId : string) : M RefreshResult :=
  let! (n, err) := call (CallVpcGet vpcId) (λ h, onVpcGet w h vpcId) in
  match err with
  | Some e => ret (ifaceNil, "", Some e)
  | None =>
      let! n' := deref n in
      if bool_decide (vpcStatus n' = "OK") then ret (ifaceVpc n, "ACTIVE", None)
      else if bool_decide (vpcStatus n' = "DOWN")
           then ret (ifaceNil, "", Some (Errorf "Vpc status: '%s'" [vpcStatus n']))
           else ret (ifaceVpc n, vpcStatus n', None)
  end.

Definition waitForVpcDelete (vpcId : string) : M RefreshResult :=
  let! (r, err) := call (CallVpcGet vpcId) (λ h, onVpcGet w h vpcId) in
  match err with
  | Some e =>
      if isErrDefault404 e then ret (ifaceVpc r, "DELETED", None)
      else ret (ifaceVpc r, "ACTIVE", Some e)
  | None =>
      let! err := call (CallVpcDelete vpcId) (λ h, onVpcDelete w h vpcId) in
      match err with
      | Some e =>
          if isErrDefault404 e then ret (ifaceVpc r, "DELETED", None)
          else
            match asErrUnexpectedResponseCode e with
            | Some actual =>
                if bool_decide (actual = 409) then ret (ifaceVpc r, "ACTIVE", None)
                else ret (ifaceVpc r, "ACTIVE", Some e)
            | None => ret (ifaceVpc r, "ACTIVE", Some e)
            end
      | None => ret (ifaceVpc r, "ACTIVE", None)
      end
  end.

(** The [StateChangeConf] literals of [Create] and [Delete]; the delay
    and minimum timeout only pace the polls. *)
Definition vpcCreateConf (vpcId : string) : StateChangeConf :=
  {| Pending := ["CREATING"];
     Target := ["ACTIVE"];
     Refresh := waitForVpcActive vpcId;
     Timeout := createPolls w |}.

Definition vpcDeleteConf (vpcId : string) : StateChangeConf :=
  {| Pending := ["ACTIVE"];
     Target := ["DELETED"];
     Refresh := waitForVpcDelete vpcId;
     Timeout := deletePolls w |}.

Definition routeMap (rtb : Route) : gmap string string :=
  <["nexthop" := NextHop rtb]> (<["destination" := DestinationCIDR rtb]> ∅).

Definition resourceVirtualPrivateCloudV1Read : M (option error) :=
  match clientErr w NetworkingV1 with
  | Some e => ret (Some (ErrorfWrap "Error creating Huaweicloud Vpc client: %s" [] e))
  | None =>
      let! d := getData in
      let! (n, err) := call (CallVpcGet (Id d)) (λ h, onVpcGet w h (Id d)) in
      match err with
      | Some e =>
          if isErrDefault404 e then (let! _ := SetId "" in ret None)
          else ret (Some (ErrorfWrap "Error retrieving Huaweicloud Vpc: %s" [] e))
      | None =>
          let! n := deref n in
          let! _ := Set_ "name" (VString (vpcName n)) in
          let! _ := Set_ "cidr" (VString (vpcCIDR n)) in
          let! _ := Set_ "status" (VString (vpcStatus n)) in
          let! _ := Set_ "shared" (VBool (EnableSharedSnat n)) in
          let! d := getData in
          let! _ := Set_ "region" (VString (GetRegion w d)) in
          let! _ := Set_ "routes" (VList (routeMap <$> Routes n)) in
          match clientErr w NetworkingV2 with
          | Some e => ret (Some (ErrorfWrap "Error creating Huaweicloud vpc client: %s" [] e))
          | None =>
              let! d := getData in
              let! (resourceTags, err) :=
                call (CallTagsGet (Id d)) (λ h, onTagsGet w h (Id d)) in
              match err with
              | Some e =>
                  if isErrDefault404 e then ret None
                  else ret (Some (ErrorfWrap "Error fetching HuaweiCloud VPC %s tags: %s"
                                             [Id d] e))
              | None =>
                  let! resourceTags := deref resourceTags in
                  let! serr := Set_ "tags" (VMap (tagsToMap w (Tags resourceTags))) in
                  match serr with
                  | Some e => ret (Some (ErrorfWrap "Error saving HuaweiCloud VPC %s tags: %s"
                                                    [Id d] e))
                  | None => ret None
                  end
              end
          end
      end
  end.

Definition resourceVirtualPrivateCloudV1Create : M (option error) :=
  match clientErr w NetworkingV1 with
  | Some e => ret (Some (ErrorfWrap "Error creating Huaweicloud vpc client: %s" [] e))
  | None =>
      let! d := getData in
      let createOpts := mkVpcCreateOpts (GetString d "name") (GetString d "cidr") in
      let! (n, err) := call (CallVpcCreate createOpts) (λ h, onVpcCreate w h createOpts) in
      match err with
      | Some e => ret (Some (ErrorfWrap "Error creating Huaweicloud VPC: %s" [] e))
      | None =>
          let! n := deref n in
          let! _ := SetId (vpcID n) in
          let stateConf := vpcCreateConf (vpcID n) in
          let! stateErr := WaitForState stateConf in
          match stateErr with
          | Some e => ret (Some (ErrorfWrap "Error waiting for Vpc (%s) to become ACTIVE: %s"
                                            [vpcID n] e))
          | None =>
              let! d := getData in
              let tagRaw := GetMap d "tags" in
              orElse
                (if bool_decide (0 < size tagRaw)%nat then
                   match clientErr w NetworkingV2 with
                   | Some e =>
                       ret (Some (ErrorfWrap "Error creating Huaweicloud vpc client: %s" [] e))
                   | None =>
                       let taglist := expandResourceTags w tagRaw in
                       let! tagErr := call (CallTagsCreate (vpcID n) taglist)
                                           (λ h, onTagsCreate w h (vpcID n) taglist) in
                       match tagErr with
                       | Some e =>
                           ret (Some (ErrorfWrap "Error setting tags of VirtualPrivateCloud %q: %s"
                                                 [vpcID n] e))
                       | None => ret None
                       end
                   end
                 else ret None)
                resourceVirtualPrivateCloudV1Read
          end
      end
  end.

(** The request body of an update, field by field. *)
Definition vpcUpdateOpts (d : ResourceData) : VpcUpdateOpts :=
  let updateOpts := mkVpcUpdateOpts "" "" in
  let updateOpts :=
    if HasChange d "name" then mkVpcUpdateOpts (GetString d "name") (vuCIDR updateOpts)
    else updateOpts in
  let updateOpts :=
    if HasChange d "cidr" then mkVpcUpdateOpts (vuName updateOpts) (GetString d "cidr")
    else updateOpts in
  updateOpts.

Definition resourceVirtualPrivateCloudV1Update : M (option error) :=
  match clientErr w NetworkingV1 with
  | Some e => ret (Some (ErrorfWrap "Error creating Huaweicloud Vpc: %s" [] e))
  | None =>
      let! d := getData in
      let updateOpts := vpcUpdateOpts d in
      let! (_, err) := call (CallVpcUpdate (Id d) updateOpts)
                             (λ h, onVpcUpdate w h (Id d) updateOpts) in
      match err with
      | Some e => ret (Some (ErrorfWrap "Error updating Huaweicloud Vpc: %s" [] e))
      | None =>
          orElse
            (if HasChange d "tags" then
               match clientErr w NetworkingV2 with
               | Some e =>
                   ret (Some (ErrorfWrap "Error creating Huaweicloud vpc client: %s" [] e))
               | None =>
                   let! tagErr := call (CallTagsUpdate (Id d)) (λ h, onTagsUpdate w h d) in
                   match tagErr with
                   | Some e => ret (Some (ErrorfWrap "Error updating tags of VPC %s: %s"
                                                     [Id d] e))
                   | None => ret None
                   end
               end
             else ret None)
            resourceVirtualPrivateCloudV1Read
      end
  end.

Definition resourceVirtualPrivateCloudV1Delete : M (option error) :=
  match clientErr w NetworkingV1 with
  | Some e => ret (Some (ErrorfWrap "Error creating Huaweicloud vpc: %s" [] e))
  | None =>
      let! d := getData in
      let stateConf := vpcDeleteConf (Id d) in
      let! err := WaitForState stateConf in
      match err with
      | Some e => ret (Some (ErrorfWrap "Error deleting Huaweicloud Vpc: %s" [] e))
      | None =>
          let! _ := SetId "" in
          ret None
      end
  end.

(** ** Resource: CCE cluster *)

Definition resourceClusterLabelsV3 (d : ResourceData) : gmap string string :=
  GetMap d "labels".

Definition resourceClusterAnnotationsV3 (d : ResourceData) : gmap string string :=
  GetMap d "annotations".

Definition resourceClusterExtendParamV3 (d : ResourceData) : gmap string string :=
  let m := GetMap d "extend_param" in
  let m := match GetOk d "multi_az" with
           | Some (VBool true) => <["clusterAZ" := "multi_az"]> m
           | _ => m
           end in
  let m := match GetOk d "kube_proxy_mode" with
           | Some (VString kube_proxy_mode) => <["kubeProxyMode" := kube_proxy_mode]> m
           | _ => m
           end in
  let m := match GetOk d "eip" with
           | Some (VString eip) => <["clusterExternalIP" := eip]> m
           | _ => m
           end in
  m.

Definition clusterCreateOpts (d : ResourceData) : ClusterCreateOpts :=
  let authenticating_proxy : gmap string string :=
    if hasFilledOpt w d "authenticating_proxy_ca"
    then <["ca" := GetString d "authenticating_proxy_ca"]> ∅
    else ∅ in
  {| ccKind := "Cluster";
     ccApiVersion := "v3";
     ccName := GetString d "name";
     ccLabels := resourceClusterLabelsV3 d;
     ccAnnotations := resourceClusterAnnotationsV3 d;
     ccType := GetString d "cluster_type";
     ccFlavor := GetString d "flavor_id";
     ccVersion := GetString d "cluster_version";
     ccDescription := GetString d "description";
     ccVpcId := GetString d "vpc_id";
     ccSubnetId := GetString d "subnet_id";
     ccHighwaySubnet := GetString d "highway_subnet_id";
     ccContainerMode := GetString d "container_network_type";
     ccContainerCidr := GetString d "container_network_cidr";
     ccAuthMode := GetString d "authentication_mode";
     ccAuthenticatingProxy := authenticating_proxy;
     ccBillingMode := GetInt d "billing_mode";
     ccExtendParam := resourceClusterExtendParamV3 d |}.

Definition waitForCCEClusterActive (clusterId : string) : M RefreshResult :=
  let! (n, err) := call (CallClusterGet clusterId) (λ h, onClusterGet w h clusterId) in
  match err with
  | Some e => ret (ifaceNil, "", Some e)
  | None =>
      let! n' := deref n in
      ret (ifaceClusters n, StatusPhase n', None)
  end.

Definition waitForCCEClusterDelete (clusterId : string) : M RefreshResult :=
  let! (r, err) := call (CallClusterGet clusterId) (λ h, onClusterGet w h clusterId) in
  let afterErrorCheck : M RefreshResult :=
    let! r' := deref r in
    if bool_decide (StatusPhase r' = "Deleting") then ret (ifaceClusters r, "Deleting", None)
    else ret (ifaceClusters r, "Available", None) in
  match err with
  | Some e =>
      if isErrDefault404 e then ret (ifaceClusters r, "Deleted", None)
      else afterErrorCheck
  | None => afterErrorCheck
  end.

(** The [StateChangeConf] literals of [Create] and [Delete]. *)
Definition clusterCreateConf (clusterId : string) : StateChangeConf :=
  {| Pending := ["Creating"];
     Target := ["Available"];
     Refresh := waitForCCEClusterActive clusterId;
     Timeout := createPolls w |}.

Definition clusterDeleteConf (clusterId : string) : StateChangeConf :=
  {| Pending := ["Deleting"; "Available"; "Unavailable"];
     Target := ["Deleted"];
     Refresh := waitForCCEClusterDelete clusterId;
     Timeout := deletePolls w |}.

Definition clusterCertMap (clusterObj : CertCluster) : gmap string string :=
  <["certificate_authority_data" := CertAuthorityData clusterObj]>
    (<["server" := Server clusterObj]>
       (<["name" := certClusterName clusterObj]> ∅)).

Definition userCertMap (userObj : CertUser) : gmap string string :=
  <["client_key_data" := ClientKeyData userObj]>
    (<["client_certificate_data" := ClientCertData userObj]>
       (<["name" := certUserName userObj]> ∅)).

Definition resourceCCEClusterV3Read : M (option error) :=
  match clientErr w CceV3 with
  | Some e => ret (Some (ErrorfWrap "Error creating HuaweiCloud CCE client: %s" [] e))
  | None =>
      let! d := getData in
      let! (n, err) := call (CallClusterGet (Id d)) (λ h, onClusterGet w h (Id d)) in
      match err with
      | Some e =>
          if isErrDefault404 e then (let! _ := SetId "" in ret None)
          else ret (Some (ErrorfWrap "Error retrieving HuaweiCloud CCE: %s" [] e))
      | None =>
          let! n := deref n in
          let! _ := Set_ "name" (VString (MetadataName n)) in
          let! _ := Set_ "status" (VString (StatusPhase n)) in
          let! _ := Set_ "flavor_id" (VString (SpecFlavor n)) in
          let! _ := Set_ "cluster_version" (VString (SpecVersion n)) in
          let! _ := Set_ "cluster_type" (VString (SpecType n)) in
          let! _ := Set_ "description" (VString (SpecDescription n)) in
          let! _ := Set_ "billing_mode" (VInt (SpecBillingMode n)) in
          let! _ := Set_ "vpc_id" (VString (HostVpcId n)) in
          let! _ := Set_ "subnet_id" (VString (HostSubnetId n)) in
          let! _ := Set_ "highway_subnet_id" (VString (HostHighwaySubnet n)) in
          let! _ := Set_ "container_network_type" (VString (ContainerMode n)) in
          let! _ := Set_ "container_network_cidr" (VString (ContainerCidr n)) in
          let! _ := Set_ "authentication_mode" (VString (AuthenticationMode n)) in
          let! d := getData in
          let! _ := Set_ "region" (VString (GetRegion w d)) in
          (* the error of GetCert is logged and dropped *)
          let! (cert, _) := call (CallClusterGetCert (Id d))
                                 (λ h, onClusterGetCert w h (Id d)) in
          let! cert := deref cert in
          let! _ := Set_ "certificate_clusters"
                         (VList (clusterCertMap <$> certClusters cert)) in
          let! _ := Set_ "certificate_users"
                         (VList (userCertMap <$> certUsers cert)) in
          ret None
      end
  end.

Definition resourceCCEClusterV3Create : M (option error) :=
  match clientErr w CceV3 with
  | Some e => ret (Some (ErrorfWrap "Unable to create HuaweiCloud CCE client : %s" [] e))
  | None =>
      let! d := getData in
      let createOpts := clusterCreateOpts d in
      let! (create, err) := call (CallClusterCreate createOpts)
                                 (λ h, onClusterCreate w h createOpts) in
      match err with
      | Some e => ret (Some (ErrorfWrap "Error creating HuaweiCloud Cluster: %s" [] e))
      | None =>
          let! create := deref create in
          let stateConf := clusterCreateConf (MetadataId create) in
          let! err := WaitForState stateConf in
          match err with
          | Some e => ret (Some (ErrorfWrap "Error creating HuaweiCloud CCE cluster: %s" [] e))
          | None =>
              let! _ := SetId (MetadataId create) in
              resourceCCEClusterV3Read
          end
      end
  end.

(** The request body of an update, field by field. *)
Definition clusterUpdateOpts (d : ResourceData) : ClusterUpdateOpts :=
  let updateOpts := mkClusterUpdateOpts "" in
  if HasChange d "description" then mkClusterUpdateOpts (GetString d "description")
  else updateOpts.

Definition resourceCCEClusterV3Update : M (option error) :=
  match clientErr w CceV3 with
  | Some e => ret (Some (ErrorfWrap "Error creating HuaweiCloud CCE Client: %s" [] e))
  | None =>
      let! d := getData in
      let updateOpts := clusterUpdateOpts d in
      let! (_, err) := call (CallClusterUpdate (Id d) updateOpts)
                            (λ h, onClusterUpdate w h (Id d) updateOpts) in
      match err with
      | Some e => ret (Some (ErrorfWrap "Error updating HuaweiCloud CCE: %s" [] e))
      | None => resourceCCEClusterV3Read
      end
  end.

Definition resourceCCEClusterV3Delete : M (option error) :=
  match clientErr w CceV3 with
  | Some e => ret (Some (ErrorfWrap "Error creating HuaweiCloud CCE Client: %s" [] e))
  | None =>
      let! d := getData in
      let! err := call (CallClusterDelete (Id d)) (λ h, onClusterDelete w h (Id d)) in
      match err with
      | Some e => ret (Some (ErrorfWrap "Error deleting HuaweiCloud CCE Cluster: %s" [] e))
      | None =>
          let stateConf := clusterDeleteConf (Id d) in
          let! err := WaitForState stateConf in
          match err with
          | Some e => ret (Some (ErrorfWrap "Error deleting HuaweiCloud CCE cluster: %s" [] e))
          | None =>
              let! _ := SetId "" in
              ret None
          end
      end
  end.

End Handlers.

(** ** Schemas: which keys force a new resource *)

Definition resourceCCEClusterV3ForceNew : list (string * bool) :=
  [("region", true); ("name", true); ("labels", true); ("annotations", true);
   ("flavor_id", true); ("cluster_version", true); ("cluster_type", true);
   ("description", false); ("billing_mode", true); ("vpc_id", true);
   ("subnet_id", true); ("highway_subnet_id", true); ("extend_param", true);
   ("container_network_type", true); ("container_network_cidr", true);
   ("authentication_mode", true); ("authenticating_proxy_ca", true);
   ("multi_az", true); ("eip", true); ("kube_proxy_mode", true);
   ("status", false); ("certificate_clusters", false);
   ("certificate_users", false)].

Definition resourceVirtualPrivateCloudV1ForceNew : list (string * bool) :=
  [("region", true); ("name", false); ("cidr", false); ("status", false);
   ("shared", false); ("routes", false)].

Definition isForceNew (schema : list (string * bool)) (k : string) : bool :=
  bool_decide ((k, true) ∈ schema).

(** The schema keys whose values an update request carries, with the
    value carried: one entry per assignment to [updateOpts]. *)
Definition vpcUpdateFields (d : ResourceData) : list (string * string) :=
  (if HasChange d "name" then [("name", GetString d "name")] else []) ++
  (if HasChange d "cidr" then [("cidr", GetString d "cidr")] else []).

Definition clusterUpdateFields (d : ResourceData) : list (string * string) :=
  if HasChange d "description" then [("description", GetString d "description")] else [].

(** ** Worlds to run the handlers in *)

Definition unreachable : error := ErrUpstream "unreachable".

(** A world whose clients can all be built and whose timeouts leave room
    for [polls] polls; the answers that matter are passed in, every other
    call fails. *)
Definition scriptedWorld (polls : nat)
    (windows : result GetResponse)
    (vpcCreate : result Vpc)
    (vpcGet : list Call → result Vpc)
    (vpcDelete : list Call → option error)
    (tagsGet : result ResourceTags)
    (clusterCreate : result Clusters)
    (clusterGet : list Call → result Clusters)
    (clusterGetCert : result Certificate)
    (clusterDelete : option error) : World :=
  {| clientErr := λ _, None;
     configRegion := "cn-north-1";
     createPolls := polls;
     deletePolls := polls;
     expandResourceTags := λ m, (λ kv, mkResourceTag kv.1 kv.2) <$> map_to_list m;
     tagsToMap := λ l, list_to_map ((λ t, (tagKey t, tagValue t)) <$> l);
     hasFilledOpt := λ d k, bool_decide (is_Some (GetOk d k));
     onMaintainWindowsGet := λ _, windows;
     onVpcCreate := λ _ _, vpcCreate;
     onVpcGet := λ h _, vpcGet h;
     onVpcUpdate := λ _ _ _, (None, None);
     onVpcDelete := λ h _, vpcDelete h;
     onTagsCreate := λ _ _ _, None;
     onTagsGet := λ _ _, tagsGet;
     onTagsUpdate := λ _ _, None;
     onClusterCreate := λ _ _, clusterCreate;
     onClusterGet := λ h _, clusterGet h;
     onClusterGetCert := λ _ _, clusterGetCert;
     onClusterUpdate := λ _ _ _, (None, None);
     onClusterDelete := λ _ _, clusterDelete |}.

Definition failing {A} : result A := (None, Some unreachable).

Definition emptyData : ResourceData := mkResourceData "" ∅ ∅.

Definition startState (d : ResourceData) : State := mkState d [].

Definition window1 : MaintainWindow := mkMaintainWindow 1 "22:00:00" "02:00:00" true.
Definition window2 : MaintainWindow := mkMaintainWindow 2 "02:00:00" "06:00:00" false.
Definition window3 : MaintainWindow := mkMaintainWindow 3 "06:00:00" "10:00:00" false.

Definition windowsWorld (ws : list MaintainWindow) : World :=
  scriptedWorld 3 (Some (mkGetResponse ws), None) failing (λ _, failing) (λ _, None)
                failing failing (λ _, failing) failing None.

(** The reading of the filter under which every field is optional: a
    window is left out only for a field the caller supplied and that
    differs from the window's. *)
Definition suppliedAndDiffers (d : ResourceData) (mv : MaintainWindow) : Prop :=
  (∃ z, attrs d !! "seq" = Some (VInt z) ∧ mwID mv ≠ z) ∨
  (∃ s, attrs d !! "begin" = Some (VString s) ∧ mwBegin mv ≠ s) ∨
  (∃ s, attrs d !! "end" = Some (VString s) ∧ mwEnd mv ≠ s) ∨
  (∃ b, attrs d !! "default" = Some (VBool b) ∧ mwDefault mv ≠ b).

(** The error a fatal poll ends the wait with. *)
Definition fatalError (conf : StateChangeConf) (s : string) (oe : option error) : error :=
  match oe with
  | Some e => e
  | None => UnexpectedStateError s (Target conf)
  end.

(** Every get answers not-found. *)
Definition goneWorld : World :=
  scriptedWorld 3 failing failing (λ _, (None, Some (ErrDefault404 "vpc not found")))
                (λ _, None) failing failing
                (λ _, (None, Some (ErrDefault404 "cluster not found"))) failing None.

Definition vpcCreating : Vpc := mkVpc "vpc-1" "net" "10.0.0.0/8" "CREATING" false [].
Definition vpcDown : Vpc := mkVpc "vpc-1" "net" "10.0.0.0/8" "DOWN" false [].
Definition vpcOk : Vpc := mkVpc "vpc-1" "net" "10.0.0.0/8" "OK" false [].

Definition clusterIn (phase : string) : Clusters :=
  {| MetadataId := "cce-1"; MetadataName := "k8s"; StatusPhase := phase;
     SpecFlavor := "cce.s1.small"; SpecVersion := "v1.11"; SpecType := "VirtualMachine";
     SpecDescription := ""; SpecBillingMode := 0;
     HostVpcId := "vpc-1"; HostSubnetId := "subnet-1"; HostHighwaySubnet := "";
     ContainerMode := "overlay_l2"; ContainerCidr := "172.16.0.0/16";
     AuthenticationMode := "x509" |}.

(** The create call succeeds; the first poll sees the resource still
    being created, the second sees it failed. *)
Definition failedCreateWorld : World :=
  scriptedWorld 5 failing (Some vpcCreating, None)
    (λ h, if bool_decide (length h < 2)%nat then (Some vpcCreating, None)
          else (Some vpcDown, None))
    (λ _, None) failing (Some (clusterIn "Creating"), None)
    (λ h, if bool_decide (length h < 2)%nat then (Some (clusterIn "Creating"), None)
          else (Some (clusterIn "Unavailable"), None))
    failing None.

(** The VPC is there; removing it answers 409 until two removal calls
    have been made, then succeeds, after which the get answers 404. *)
Definition busyDeleteWorld : World :=
  scriptedWorld 5 failing failing
    (λ h, if bool_decide (length h < 6)%nat then (Some vpcOk, None)
          else (None, Some (ErrDefault404 "vpc not found")))
    (λ h, if bool_decide (length h < 4)%nat then Some (ErrUnexpectedResponseCode 409)
          else None)
    failing failing
    (λ h, if bool_decide (length h < 3)%nat then (Some (clusterIn "Deleting"), None)
          else (None, Some (ErrDefault404 "cluster not found")))
    failing None.

(** The value an update request carries for key [k], empty when the key
    is not among the fields sent. *)
Definition fieldOr (fields : list (string * string)) (k : string) : string :=
  default "" ((list_to_map fields : gmap string string) !! k).

(** A record whose description was edited, and nothing else. *)
Definition editedCluster : ResourceData :=
  mkResourceData "cce-1"
    (<["description" := VString "staging"]> (<["name" := VString "k8s"]> ∅))
    {["description"]}.

(** A record whose name and tags were edited, but not its cidr. *)
Definition editedVpc : ResourceData :=
  mkResourceData "vpc-1"
    (<["name" := VString "net2"]> (<["cidr" := VString "10.0.0.0/8"]> ∅))
    {["name"; "tags"]}.


(** ** More worlds and states, for the further properties *)

(** [w] with another answer to the construction of clients. *)
Definition withClientErr (w : World) (f : Service → option error) : World :=
  {| clientErr := f;
     configRegion := configRegion w;
     createPolls := createPolls w;
     deletePolls := deletePolls w;
     expandResourceTags := expandResourceTags w;
     tagsToMap := tagsToMap w;
     hasFilledOpt := hasFilledOpt w;
     onMaintainWindowsGet := onMaintainWindowsGet w;
     onVpcCreate := onVpcCreate w;
     onVpcGet := onVpcGet w;
     onVpcUpdate := onVpcUpdate w;
     onVpcDelete := onVpcDelete w;
     onTagsCreate := onTagsCreate w;
     onTagsGet := onTagsGet w;
     onTagsUpdate := onTagsUpdate w;
     onClusterCreate := onClusterCreate w;
     onClusterGet := onClusterGet w;
     onClusterGetCert := onClusterGetCert w;
     onClusterUpdate := onClusterUpdate w;
     onClusterDelete := onClusterDelete w |}.

Definition sampleCertificate : Certificate :=
  mkCertificate [mkCertCluster "internalCluster" "https://192.168.0.10:5443" "Q0E="]
                [mkCertUser "user" "Q0VSVA==" "S0VZ"].

(** Everything is there and answers: created resources are active at
    the first poll. *)
Definition healthyWorld : World :=
  scriptedWorld 5 (Some (mkGetResponse [window1; window2; window3]), None)
    (Some vpcCreating, None) (λ _, (Some vpcOk, None)) (λ _, None)
    (Some (mkResourceTags [mkResourceTag "env" "dev"]), None)
    (Some (clusterIn "Creating"), None) (λ _, (Some (clusterIn "Available"), None))
    (Some sampleCertificate, None) None.

(** The state the data source leaves when it settles on window [mw]. *)
Definition windowWritten (st : State) (mw : MaintainWindow) : State :=
  mkState (mkResourceData (pretty (mwID mw))
             (<["default" := VBool (mwDefault mw)]>
                (<["end" := VString (mwEnd mw)]>
                   (<["begin" := VString (mwBegin mw)]> (attrs (rd st)))))
             (changed (rd st)))
          (calls st ++ [CallMaintainWindowsGet]).

(** The state VPC Read reaches once the get has answered with [n]: the
    fields of [n] are written, the tags are still to be fetched. *)
Definition vpcFieldsWritten (w : World) (st : State) (n : Vpc) : State :=
  let d4 := mkResourceData (Id (rd st))
              (<["shared" := VBool (EnableSharedSnat n)]>
                 (<["status" := VString (vpcStatus n)]>
                    (<["cidr" := VString (vpcCIDR n)]>
                       (<["name" := VString (vpcName n)]> (attrs (rd st))))))
              (changed (rd st)) in
  mkState (mkResourceData (Id (rd st))
             (<["routes" := VList (routeMap <$> Routes n)]>
                (<["region" := VString (GetRegion w d4)]> (attrs d4)))
             (changed (rd st)))
          (calls st ++ [CallVpcGet (Id (rd st))]).

(** The state VPC Read ends in when the tags [rt] were fetched too. *)
Definition vpcTagsWritten (w : World) (st : State) (n : Vpc) (rt : ResourceTags) : State :=
  let st2 := vpcFieldsWritten w st n in
  mkState (mkResourceData (Id (rd st))
             (<["tags" := VMap (tagsToMap w (Tags rt))]> (attrs (rd st2)))
             (changed (rd st)))
          (calls st2 ++ [CallTagsGet (Id (rd st))]).

(** The state cluster Read reaches once the get has answered with [n],
    before the certificates are fetched. *)
Definition clusterFieldsWritten (w : World) (st : State) (n : Clusters) : State :=
  let d13 := mkResourceData (Id (rd st))
    (<["authentication_mode" := VString (AuthenticationMode n)]>
    (<["container_network_cidr" := VString (ContainerCidr n)]>
    (<["container_network_type" := VString (ContainerMode n)]>
    (<["highway_subnet_id" := VString (HostHighwaySubnet n)]>
    (<["subnet_id" := VString (HostSubnetId n)]>
    (<["vpc_id" := VString (HostVpcId n)]>
    (<["billing_mode" := VInt (SpecBillingMode n)]>
    (<["description" := VString (SpecDescription n)]>
    (<["cluster_type" := VString (SpecType n)]>
    (<["cluster_version" := VString (SpecVersion n)]>
    (<["flavor_id" := VString (SpecFlavor n)]>
    (<["status" := VString (StatusPhase n)]>
    (<["name" := VString (MetadataName n)]> (attrs (rd st)))))))))))))))
    (changed (rd st)) in
  mkState (mkResourceData (Id (rd st))
             (<["region" := VString (GetRegion w d13)]> (attrs d13))
             (changed (rd st)))
          (calls st ++ [CallClusterGet (Id (rd st))]).

(** The state cluster Read ends in when it was handed [cert]. *)
Definition clusterCertWritten (w : World) (st : State) (n : Clusters) (cert : Certificate)
  : State :=
  let st2 := clusterFieldsWritten w st n in
  mkState (mkResourceData (Id (rd st))
             (<["certificate_users" := VList (userCertMap <$> certUsers cert)]>
                (<["certificate_clusters" := VList (clusterCertMap <$> certClusters cert)]>
                   (attrs (rd st2))))
             (changed (rd st)))
          (calls st2 ++ [CallClusterGetCert (Id (rd st))]).

(** A record after a 404: the identity is cleared, the rest stays. *)
Definition cleared (d : ResourceData) : ResourceData :=
  mkResourceData "" (attrs d) (changed d).

(** * Properties *)

(** ** The filter of the data source *)

Lemma filterLoop_filter d ws (acc : list MaintainWindow) :
  filterLoop d ws acc = (acc ++ List.filter (keepMV d) ws)%list.
Proof.
  revert acc. induction ws as [|mv ws IH]; intros acc; simpl.
  - by rewrite app_nil_r.
  - destruct (keepMV d mv); rewrite IH; [by rewrite <- app_assoc | done].
Qed.

Lemma filter_nil_Forall d ws :
  Forall (λ mv, keepMV d mv = false) ws → List.filter (keepMV d) ws = [].
Proof.
  induction 1 as [|mv ws Hmv _ IH]; simpl; [done|]. by rewrite Hmv.
Qed.

Lemma filter_head_Exists d ws :
  Exists (λ mv, keepMV d mv = true) ws →
  ∃ mw rest, List.filter (keepMV d) ws = mw :: rest ∧ mw ∈ ws ∧ keepMV d mw = true.
Proof.
  induction 1 as [mv ws Hmv|mv ws _ IH]; simpl.
  - rewrite Hmv. exists mv, (List.filter (keepMV d) ws). split_and!; [done|left|done].
  - destruct (keepMV d mv) eqn:Hmv.
    + exists mv, (List.filter (keepMV d) ws). split_and!; [done|left|done].
    + destruct IH as (mw & rest & -> & Hin & Hk).
      exists mw, rest. split_and!; [done|by right|done].
Qed.

(** C1. When the list of windows was fetched: if no window passes the
    filter, Read returns the "no results" error and leaves the record,
    identity included, as it was; if some window passes, Read returns no
    error and the record then holds the first passing window: its
    sequence number in decimal as identity, and its begin, end and default
    fields. *)
Theorem dataSourceDmsMaintainWindowV1Read_result (w : World) (st : State) (v : GetResponse) :
  clientErr w DmsV1 = None →
  onMaintainWindowsGet w (calls st) = (Some v, None) →
  (Forall (λ mv, keepMV (rd st) mv = false) (MaintainWindows v) →
   ∃ st', dataSourceDmsMaintainWindowV1Read w st = Some (Some noResults, st')
          ∧ rd st' = rd st)
  ∧
  (Exists (λ mv, keepMV (rd st) mv = true) (MaintainWindows v) →
   ∃ mw st',
     head (List.filter (keepMV (rd st)) (MaintainWindows v)) = Some mw
     ∧ mw ∈ MaintainWindows v
     ∧ keepMV (rd st) mw = true
     ∧ dataSourceDmsMaintainWindowV1Read w st = Some (None, st')
     ∧ Id (rd st') = pretty (mwID mw)
     ∧ attrs (rd st') !! "begin" = Some (VString (mwBegin mw))
     ∧ attrs (rd st') !! "end" = Some (VString (mwEnd mw))
     ∧ attrs (rd st') !! "default" = Some (VBool (mwDefault mw))).
Proof.
  intros Hclient Hget.
  assert (Hrun : dataSourceDmsMaintainWindowV1Read w st =
                 let st1 := mkState (rd st) (calls st ++ [CallMaintainWindowsGet]) in
                 match List.filter (keepMV (rd st)) (MaintainWindows v) with
                 | [] => Some (Some noResults, st1)
                 | mw :: _ =>
                     Some (None,
                           mkState (mkResourceData (pretty (mwID mw))
                                      (<["default" := VBool (mwDefault mw)]>
                                         (<["end" := VString (mwEnd mw)]>
                                            (<["begin" := VString (mwBegin mw)]>
                                               (attrs (rd st)))))
                                      (changed (rd st)))
                                   (calls st1))
                 end).
  { unfold dataSourceDmsMaintainWindowV1Read. rewrite Hclient.
    unfold bind at 1, call. rewrite Hget. cbn [deref ret bind getData rd].
    rewrite filterLoop_filter, app_nil_l.
    by destruct (List.filter (keepMV (rd st)) (MaintainWindows v)). }
  rewrite Hrun. clear Hrun. split.
  - intros Hnone. rewrite (filter_nil_Forall _ _ Hnone).
    eexists; split; [reflexivity|done].
  - intros Hsome.
    destruct (filter_head_Exists _ _ Hsome) as (mw & rest & Hf & Hin & Hk).
    rewrite Hf. exists mw. eexists.
    split_and!; try done; try reflexivity; cbn [rd attrs]; by simplify_map_eq.
Qed.

Lemma dataSourceDmsMaintainWindowV1Read_witness :
  let w := windowsWorld [window1; window2; window3] in
  let st := startState (mkResourceData "" (<["begin" := VString "02:00:00"]> ∅) ∅) in
  ∃ st', dataSourceDmsMaintainWindowV1Read w st = Some (None, st')
         ∧ Id (rd st') = "2"
         ∧ attrs (rd st') !! "end" = Some (VString "06:00:00").
Proof.
  intros w st.
  destruct (dataSourceDmsMaintainWindowV1Read_result w st
              (mkGetResponse [window1; window2; window3]) eq_refl eq_refl)
    as [_ Hsome].
  destruct Hsome as (mw & st' & Hhead & _ & _ & Hrun & Hid & _ & Hend & _).
  { apply Exists_cons_tl, Exists_cons_hd. vm_compute. reflexivity. }
  vm_compute in Hhead. injection Hhead as <-.
  exists st'. split_and!; [exact Hrun|exact Hid|exact Hend].
Defined.

(** C2, counterexample. A window with the default flag set is left out
    by a lookup that supplies no filter at all: the claim that every
    filter field is optional fails on the default flag. *)
Lemma keepMV_unset_default_excludes :
  attrs emptyData = ∅
  ∧ keepMV emptyData window1 = false
  ∧ ¬ suppliedAndDiffers emptyData window1.
Proof.
  split_and!; [done|done|].
  intros [(z & H & _)|[(s & H & _)|[(s & H & _)|(b & H & _)]]];
    cbn [emptyData attrs] in H; by rewrite lookup_empty in H.
Qed.

(** C2, amended. The sequence number, begin time and end time are
    optional filters; the default flag is always compared, and reads as
    false when unset.  A window is left out exactly when a non-zero seq
    differs from its sequence number, a non-empty begin or end differs
    from its begin or end, or its default flag differs from the flag of
    the record; so an unset (or zero, or empty) seq, begin or end never
    leaves a window out, and with all four unset exactly the windows whose
    default flag is false are kept. *)
Theorem keepMV_false_iff (d : ResourceData) (mv : MaintainWindow) :
  (keepMV d mv = false ↔
     (GetInt d "seq" ≠ 0 ∧ mwID mv ≠ GetInt d "seq")
     ∨ (GetString d "begin" ≠ "" ∧ mwBegin mv ≠ GetString d "begin")
     ∨ (GetString d "end" ≠ "" ∧ mwEnd mv ≠ GetString d "end")
     ∨ mwDefault mv ≠ GetBool d "default")
  ∧ (attrs d !! "seq" = None → GetInt d "seq" = 0)
  ∧ (attrs d !! "begin" = None → GetString d "begin" = "")
  ∧ (attrs d !! "end" = None → GetString d "end" = "")
  ∧ (attrs d !! "default" = None → GetBool d "default" = false)
  ∧ (attrs d !! "seq" = None → attrs d !! "begin" = None →
     attrs d !! "end" = None → attrs d !! "default" = None →
     keepMV d mv = negb (mwDefault mv)).
Proof.
  assert (Hiff : keepMV d mv = false ↔
     (GetInt d "seq" ≠ 0 ∧ mwID mv ≠ GetInt d "seq")
     ∨ (GetString d "begin" ≠ "" ∧ mwBegin mv ≠ GetString d "begin")
     ∨ (GetString d "end" ≠ "" ∧ mwEnd mv ≠ GetString d "end")
     ∨ mwDefault mv ≠ GetBool d "default").
  { unfold keepMV.
    repeat case_bool_decide; simpl; split; try done; try tauto; naive_solver. }
  split_and!; [exact Hiff|..].
  - unfold GetInt. by intros ->.
  - unfold GetString. by intros ->.
  - unfold GetString. by intros ->.
  - unfold GetBool. by intros ->.
  - intros Hs Hb He Hd. unfold keepMV, GetInt, GetString, GetBool.
    rewrite Hs, Hb, He, Hd. simpl.
    by destruct (mwDefault mv).
Qed.

Lemma keepMV_false_iff_witness :
  GetBool emptyData "default" = false ∧ keepMV emptyData window2 = true.
Proof.
  destruct (keepMV_false_iff emptyData window2) as (_ & _ & _ & _ & Hd & Hall).
  split; [apply Hd; reflexivity|].
  rewrite Hall; reflexivity.
Defined.

(** ** The monad *)

Lemma bind_run {A B} (m : M A) (k : A → M B) st a st' :
  m st = Some (a, st') → bind m k st = k a st'.
Proof. unfold bind. by intros ->. Qed.

Lemma bind_ret {A B} (a : A) (k : A → M B) st : bind (ret a) k st = k a st.
Proof. reflexivity. Qed.

Lemma bind_deref_Some {A B} (a : A) (k : A → M B) st : bind (deref (Some a)) k st = k a st.
Proof. reflexivity. Qed.

Lemma bind_getData {B} (k : ResourceData → M B) st : bind getData k st = k (rd st) st.
Proof. reflexivity. Qed.

Lemma bind_call {A B} (c : Call) (answer : list Call → A) (k : A → M B) st :
  bind (call c answer) k st = k (answer (calls st)) (mkState (rd st) (calls st ++ [c])).
Proof. reflexivity. Qed.

Lemma bind_SetId {B} (id : string) (k : unit → M B) st :
  bind (SetId id) k st
  = k tt (mkState (mkResourceData id (attrs (rd st)) (changed (rd st))) (calls st)).
Proof. reflexivity. Qed.

Lemma bind_Set_ {B} (key : string) (v : Value) (k : option error → M B) st :
  bind (Set_ key v) k st
  = k None (mkState (mkResourceData (Id (rd st)) (<[key:=v]> (attrs (rd st)))
                                    (changed (rd st)))
                    (calls st)).
Proof. reflexivity. Qed.

(** One step of a handler run, then the projections it exposes. *)
Ltac run_bind :=
  first [rewrite bind_getData | rewrite bind_call | rewrite bind_Set_
        | rewrite bind_SetId | rewrite bind_deref_Some | rewrite bind_ret];
  cbn [rd calls Id attrs changed].

(** ** The waiter *)

Lemma waitLoop_pending_step conf n last st v s st1 :
  Refresh conf st = Some ((v, s, None), st1) →
  s ∉ Target conf →
  s ∈ Pending conf →
  waitLoop conf (S n) last st = waitLoop conf n s st1.
Proof.
  intros Hr Ht Hp. cbn [waitLoop]. unfold bind at 1. rewrite Hr.
  rewrite bool_decide_eq_false_2 by done.
  by rewrite bool_decide_eq_true_2.
Qed.

Lemma waitLoop_pendingPolls conf k last st last' st' :
  pendingPolls conf k last st last' st' →
  ∀ n, waitLoop conf (k + n) last st = waitLoop conf n last' st'.
Proof.
  induction 1 as [|k last st v s st1 last' st' Hr Ht Hp _ IH]; intros n; [done|].
  change (S k + n)%nat with (S (k + n)).
  by rewrite (waitLoop_pending_step _ _ _ _ _ _ _ Hr Ht Hp).
Qed.

(** A poll that fails, or reports a status that is neither pending nor
    target, ends the wait with an error at once. *)
Lemma waitLoop_fatal_step conf n last st v s oe stf :
  Refresh conf st = Some ((v, s, oe), stf) →
  is_Some oe ∨ ((s ∉ Target conf) ∧ (s ∉ Pending conf)) →
  waitLoop conf (S n) last st = Some (Some (fatalError conf s oe), stf).
Proof.
  intros Hr Hbad. cbn [waitLoop]. unfold bind at 1. rewrite Hr.
  destruct oe as [e|]; [done|].
  destruct Hbad as [[e He]|[Ht Hp]]; [done|].
  by rewrite !bool_decide_eq_false_2 by done.
Qed.

Lemma waitLoop_fatal conf k n last st last' st' v s oe stf :
  pendingPolls conf k last st last' st' →
  (k < n)%nat →
  Refresh conf st' = Some ((v, s, oe), stf) →
  is_Some oe ∨ ((s ∉ Target conf) ∧ (s ∉ Pending conf)) →
  waitLoop conf n last st = Some (Some (fatalError conf s oe), stf).
Proof.
  intros Hpp Hk Hr Hbad.
  replace n with (k + S (n - S k))%nat by lia.
  rewrite (waitLoop_pendingPolls _ _ _ _ _ _ Hpp).
  by eapply waitLoop_fatal_step.
Qed.

(** The wait succeeds exactly when, before the timeout, some poll reports
    a target status after pending polls only. *)
Lemma waitLoop_success_iff conf n last st stf :
  waitLoop conf n last st = Some (None, stf) ↔
  ∃ k last' st' v s,
    (k < n)%nat ∧ pendingPolls conf k last st last' st'
    ∧ Refresh conf st' = Some ((v, s, None), stf) ∧ s ∈ Target conf.
Proof.
  split.
  - revert last st. induction n as [|n IH]; intros last st; [done|].
    cbn [waitLoop]. unfold bind at 1.
    destruct (Refresh conf st) as [[[[v s] [e|]] st1]|] eqn:Hr; [done| |done].
    case_bool_decide as Ht.
    + intros [= <-]. exists O, last, st, v, s.
      split_and!; [lia|constructor|done|done].
    + case_bool_decide as Hp; [|done].
      intros Hw. destruct (IH _ _ Hw) as (k & last' & st' & v' & s' & Hk & Hpp & Hr' & Ht').
      exists (S k), last', st', v', s'.
      split_and!; [lia| |done|done]. by econstructor.
  - intros (k & last' & st' & v & s & Hk & Hpp & Hr & Ht).
    replace n with (k + S (n - S k))%nat by lia.
    rewrite (waitLoop_pendingPolls _ _ _ _ _ _ Hpp).
    cbn [waitLoop]. unfold bind at 1. rewrite Hr.
    by rewrite bool_decide_eq_true_2.
Qed.

(** What every poll leaves alone, the whole wait leaves alone: the local
    record is untouched and the calls made all satisfy [P]. *)
Lemma waitLoop_frame (P : Call → Prop) conf :
  (∀ st r st', Refresh conf st = Some (r, st') →
               rd st' = rd st ∧ ∃ l, calls st' = (calls st ++ l)%list ∧ Forall P l) →
  ∀ n last st r st', waitLoop conf n last st = Some (r, st') →
               rd st' = rd st ∧ ∃ l, calls st' = (calls st ++ l)%list ∧ Forall P l.
Proof.
  intros Hstep. induction n as [|n IH]; intros last st r st'.
  - intros [= <- <-]. split; [done|]. exists []. by rewrite app_nil_r.
  - cbn [waitLoop]. unfold bind at 1.
    destruct (Refresh conf st) as [[[[v s] oe] st1]|] eqn:Hr; [|done].
    destruct (Hstep _ _ _ Hr) as (Hrd & l & Hl & HP).
    assert (Hhere : ∀ x, (ret x : M (option error)) st1 = Some (r, st') →
                         rd st' = rd st ∧ ∃ l, calls st' = (calls st ++ l)%list ∧ Forall P l).
    { intros x [= <- <-]. eauto. }
    destruct oe as [e|]; [apply Hhere|].
    case_bool_decide; [apply Hhere|].
    case_bool_decide; [|apply Hhere].
    intros Hw. destruct (IH _ _ _ _ Hw) as (Hrd' & l' & Hl' & HP').
    split; [congruence|]. exists (l ++ l')%list.
    split; [by rewrite Hl', Hl, app_assoc|by apply Forall_app].
Qed.

(** ** Read when the object is gone or the get fails *)

(** C3. When the get of a resource Read fails: on a not-found error Read
    clears the identity and returns no error; on any other error it
    returns that error wrapped under the static prefix and leaves the
    record alone.  Holds for the cluster and for the VPC. *)
Theorem Read_get_failure (w : World) (st : State)
    (nc : option Clusters) (nv : option Vpc) (e : error) :
  (clientErr w CceV3 = None →
   onClusterGet w (calls st) (Id (rd st)) = (nc, Some e) →
   resourceCCEClusterV3Read w st =
     let calls' := (calls st ++ [CallClusterGet (Id (rd st))])%list in
     if isErrDefault404 e
     then Some (None, mkState (mkResourceData "" (attrs (rd st)) (changed (rd st))) calls')
     else Some (Some (ErrorfWrap "Error retrieving HuaweiCloud CCE: %s" [] e),
                mkState (rd st) calls'))
  ∧
  (clientErr w NetworkingV1 = None →
   onVpcGet w (calls st) (Id (rd st)) = (nv, Some e) →
   resourceVirtualPrivateCloudV1Read w st =
     let calls' := (calls st ++ [CallVpcGet (Id (rd st))])%list in
     if isErrDefault404 e
     then Some (None, mkState (mkResourceData "" (attrs (rd st)) (changed (rd st))) calls')
     else Some (Some (ErrorfWrap "Error retrieving Huaweicloud Vpc: %s" [] e),
                mkState (rd st) calls')).
Proof.
  split; intros Hclient Hget.
  - unfold resourceCCEClusterV3Read. rewrite Hclient.
    unfold bind at 1, getData. unfold bind at 1, call. rewrite Hget.
    by destruct (isErrDefault404 e).
  - unfold resourceVirtualPrivateCloudV1Read. rewrite Hclient.
    unfold bind at 1, getData. unfold bind at 1, call. rewrite Hget.
    by destruct (isErrDefault404 e).
Qed.


Lemma Read_get_failure_witness :
  resourceCCEClusterV3Read goneWorld (startState (mkResourceData "cce-1" ∅ ∅))
  = Some (None, mkState emptyData [CallClusterGet "cce-1"])
  ∧ resourceVirtualPrivateCloudV1Read goneWorld (startState (mkResourceData "vpc-1" ∅ ∅))
    = Some (None, mkState emptyData [CallVpcGet "vpc-1"]).
Proof.
  split.
  - exact (proj1 (Read_get_failure goneWorld (startState (mkResourceData "cce-1" ∅ ∅))
                    None None (ErrDefault404 "cluster not found")) eq_refl eq_refl).
  - exact (proj2 (Read_get_failure goneWorld (startState (mkResourceData "vpc-1" ∅ ∅))
                    None None (ErrDefault404 "vpc not found")) eq_refl eq_refl).
Defined.

(** ** Refresh functions, one poll at a time *)

(** Unfolds the monad and splits on every answer a handler looks at. *)
Ltac step_handler :=
  unfold bind, call, ret, deref, panic, getData, SetId, Set_, orElse in *;
  simplify_eq/=.
Ltac run_cases := repeat (step_handler; try case_match).

Lemma waitForVpcDelete_calls w vpcId st r st' :
  waitForVpcDelete w vpcId st = Some (r, st') →
  rd st' = rd st
  ∧ ∃ l, calls st' = (calls st ++ l)%list
         ∧ Forall (λ c, c = CallVpcGet vpcId ∨ c = CallVpcDelete vpcId) l.
Proof.
  unfold waitForVpcDelete. intros H.
  assert (Hone : Forall (λ c, c = CallVpcGet vpcId ∨ c = CallVpcDelete vpcId)
                        [CallVpcGet vpcId]) by (repeat constructor).
  assert (Htwo : Forall (λ c, c = CallVpcGet vpcId ∨ c = CallVpcDelete vpcId)
                        [CallVpcGet vpcId; CallVpcDelete vpcId])
    by (repeat constructor; auto).
  run_cases; (split; [done|]);
    (by eexists; split; [reflexivity|])
    || (by eexists; split; [symmetry; apply app_assoc|]).
Qed.

Lemma waitForCCEClusterDelete_calls w clusterId st r st' :
  waitForCCEClusterDelete w clusterId st = Some (r, st') →
  rd st' = rd st ∧ calls st' = (calls st ++ [CallClusterGet clusterId])%list.
Proof.
  unfold waitForCCEClusterDelete. intros H. by run_cases.
Qed.

(** C4. A poll of the VPC delete waiter whose removal call is answered
    with status 409 reports the pending status "ACTIVE" without error,
    and the waiter goes on to the next poll.  The cluster delete waiter
    makes no removal call in a poll: each poll is one get. *)
Theorem waitForVpcDelete_conflict (w : World) (st : State) (vpcId : string)
    (r : option Vpc) (n : nat) (last : string) :
  onVpcGet w (calls st) vpcId = (r, None) →
  onVpcDelete w (calls st ++ [CallVpcGet vpcId])%list vpcId
    = Some (ErrUnexpectedResponseCode 409) →
  let st' := mkState (rd st) ((calls st ++ [CallVpcGet vpcId]) ++ [CallVpcDelete vpcId])%list in
  waitForVpcDelete w vpcId st = Some ((ifaceVpc r, "ACTIVE", None), st')
  ∧ "ACTIVE" ∈ Pending (vpcDeleteConf w vpcId)
  ∧ waitLoop (vpcDeleteConf w vpcId) (S n) last st
    = waitLoop (vpcDeleteConf w vpcId) n "ACTIVE" st'
  ∧ (∀ clusterId stc res stc',
       waitForCCEClusterDelete w clusterId stc = Some (res, stc') →
       calls stc' = (calls stc ++ [CallClusterGet clusterId])%list).
Proof.
  intros Hget Hdel st'.
  assert (Hpoll : waitForVpcDelete w vpcId st = Some ((ifaceVpc r, "ACTIVE", None), st')).
  { unfold waitForVpcDelete, bind, call. rewrite Hget. cbn [rd calls]. by rewrite Hdel. }
  split_and!.
  - exact Hpoll.
  - set_solver.
  - apply (waitLoop_pending_step (vpcDeleteConf w vpcId) n last st (ifaceVpc r));
      [exact Hpoll| |]; cbn; set_solver.
  - intros clusterId stc res stc' Hc.
    exact (proj2 (waitForCCEClusterDelete_calls _ _ _ _ _ Hc)).
Qed.

Lemma waitForVpcDelete_conflict_witness :
  waitForVpcDelete busyDeleteWorld "vpc-1" (startState (mkResourceData "vpc-1" ∅ ∅))
  = Some ((ifaceVpc (Some vpcOk), "ACTIVE", None),
          mkState (mkResourceData "vpc-1" ∅ ∅) [CallVpcGet "vpc-1"; CallVpcDelete "vpc-1"]).
Proof.
  exact (proj1 (waitForVpcDelete_conflict busyDeleteWorld
                  (startState (mkResourceData "vpc-1" ∅ ∅)) "vpc-1" (Some vpcOk) 0 ""
                  eq_refl eq_refl)).
Defined.

(** ** Create: failure statuses seen while waiting *)

Lemma vpcCreate_down_fatal (w : World) (st : State) (n n' : Vpc)
    (k : nat) (last' : string) (st' : State) :
  clientErr w NetworkingV1 = None →
  let createOpts := mkVpcCreateOpts (GetString (rd st) "name") (GetString (rd st) "cidr") in
  onVpcCreate w (calls st) createOpts = (Some n, None) →
  let st1 := mkState (mkResourceData (vpcID n) (attrs (rd st)) (changed (rd st)))
                     (calls st ++ [CallVpcCreate createOpts]) in
  pendingPolls (vpcCreateConf w (vpcID n)) k "" st1 last' st' →
  (k < createPolls w)%nat →
  onVpcGet w (calls st') (vpcID n) = (Some n', None) →
  vpcStatus n' = "DOWN" →
  resourceVirtualPrivateCloudV1Create w st =
    Some (Some (ErrorfWrap "Error waiting for Vpc (%s) to become ACTIVE: %s" [vpcID n]
                           (Errorf "Vpc status: '%s'" ["DOWN"])),
          mkState (rd st') (calls st' ++ [CallVpcGet (vpcID n)])).
Proof.
  intros Hclient createOpts Hcreate st1 Hpp Hk Hget Hdown.
  assert (Hpoll : Refresh (vpcCreateConf w (vpcID n)) st' =
                  Some ((ifaceNil, "", Some (Errorf "Vpc status: '%s'" ["DOWN"])),
                        mkState (rd st') (calls st' ++ [CallVpcGet (vpcID n)]))).
  { cbn [Refresh vpcCreateConf]. unfold waitForVpcActive, bind, call.
    rewrite Hget. cbn [deref ret]. rewrite Hdown.
    rewrite bool_decide_eq_false_2 by done. by rewrite bool_decide_eq_true_2. }
  unfold resourceVirtualPrivateCloudV1Create. rewrite Hclient.
  cbn -[waitLoop vpcCreateConf]. fold createOpts. rewrite Hcreate.
  cbn -[waitLoop vpcCreateConf]. fold createOpts st1.
  change (createPolls w) with (Timeout (vpcCreateConf w (vpcID n))) in Hk.
  by rewrite (bind_run _ _ _ _ _
                (waitLoop_fatal _ _ _ _ _ _ _ _ _ _ _ Hpp Hk Hpoll
                   (or_introl (mk_is_Some _ _ eq_refl)))).
Qed.

Lemma clusterCreate_unavailable_fatal (w : World) (st : State) (create c' : Clusters)
    (k : nat) (last' : string) (st' : State) :
  clientErr w CceV3 = None →
  let createOpts := clusterCreateOpts w (rd st) in
  onClusterCreate w (calls st) createOpts = (Some create, None) →
  let st1 := mkState (rd st) (calls st ++ [CallClusterCreate createOpts]) in
  pendingPolls (clusterCreateConf w (MetadataId create)) k "" st1 last' st' →
  (k < createPolls w)%nat →
  onClusterGet w (calls st') (MetadataId create) = (Some c', None) →
  StatusPhase c' = "Unavailable" →
  resourceCCEClusterV3Create w st =
    Some (Some (ErrorfWrap "Error creating HuaweiCloud CCE cluster: %s" []
                           (UnexpectedStateError "Unavailable" ["Available"])),
          mkState (rd st') (calls st' ++ [CallClusterGet (MetadataId create)])).
Proof.
  intros Hclient createOpts Hcreate st1 Hpp Hk Hget Hphase.
  assert (Hpoll : Refresh (clusterCreateConf w (MetadataId create)) st' =
                  Some ((ifaceClusters (Some c'), "Unavailable", None),
                        mkState (rd st') (calls st' ++ [CallClusterGet (MetadataId create)]))).
  { cbn [Refresh clusterCreateConf]. unfold waitForCCEClusterActive, bind, call.
    rewrite Hget. cbn [deref ret]. by rewrite Hphase. }
  assert (Hbad : is_Some (@None error)
                 ∨ (("Unavailable" ∉ Target (clusterCreateConf w (MetadataId create)))
                    ∧ ("Unavailable" ∉ Pending (clusterCreateConf w (MetadataId create)))))
    by (right; cbn; set_solver).
  unfold resourceCCEClusterV3Create. rewrite Hclient.
  cbn -[waitLoop clusterCreateConf clusterCreateOpts]. fold createOpts. rewrite Hcreate.
  cbn -[waitLoop clusterCreateConf clusterCreateOpts]. fold createOpts st1.
  change (createPolls w) with (Timeout (clusterCreateConf w (MetadataId create))) in Hk.
  by rewrite (bind_run _ _ _ _ _ (waitLoop_fatal _ _ _ _ _ _ _ _ _ _ _ Hpp Hk Hpoll Hbad)).
Qed.

(** C5. Once the create call has succeeded, Create polls the status; if,
    before the timeout and after any number of pending polls, a poll sees
    the failure status (DOWN for a VPC, Unavailable for a cluster), Create
    returns an error and polls no further: the last call made is the get
    that saw the failure. *)
Theorem Create_failure_status_fatal (w : World) (st : State)
    (n n' : Vpc) (create c' : Clusters) (k : nat) (last' : string) (st' : State) :
  (clientErr w NetworkingV1 = None →
   let createOpts := mkVpcCreateOpts (GetString (rd st) "name") (GetString (rd st) "cidr") in
   onVpcCreate w (calls st) createOpts = (Some n, None) →
   let st1 := mkState (mkResourceData (vpcID n) (attrs (rd st)) (changed (rd st)))
                      (calls st ++ [CallVpcCreate createOpts]) in
   pendingPolls (vpcCreateConf w (vpcID n)) k "" st1 last' st' →
   (k < createPolls w)%nat →
   onVpcGet w (calls st') (vpcID n) = (Some n', None) →
   vpcStatus n' = "DOWN" →
   resourceVirtualPrivateCloudV1Create w st =
     Some (Some (ErrorfWrap "Error waiting for Vpc (%s) to become ACTIVE: %s" [vpcID n]
                            (Errorf "Vpc status: '%s'" ["DOWN"])),
           mkState (rd st') (calls st' ++ [CallVpcGet (vpcID n)])))
  ∧
  (clientErr w CceV3 = None →
   let createOpts := clusterCreateOpts w (rd st) in
   onClusterCreate w (calls st) createOpts = (Some create, None) →
   let st1 := mkState (rd st) (calls st ++ [CallClusterCreate createOpts]) in
   pendingPolls (clusterCreateConf w (MetadataId create)) k "" st1 last' st' →
   (k < createPolls w)%nat →
   onClusterGet w (calls st') (MetadataId create) = (Some c', None) →
   StatusPhase c' = "Unavailable" →
   resourceCCEClusterV3Create w st =
     Some (Some (ErrorfWrap "Error creating HuaweiCloud CCE cluster: %s" []
                            (UnexpectedStateError "Unavailable" ["Available"])),
           mkState (rd st') (calls st' ++ [CallClusterGet (MetadataId create)]))).
Proof.
  split.
  - apply vpcCreate_down_fatal.
  - apply clusterCreate_unavailable_fatal.
Qed.

Lemma Create_failure_status_fatal_witness :
  resourceVirtualPrivateCloudV1Create failedCreateWorld (startState emptyData)
  = Some (Some (ErrorfWrap "Error waiting for Vpc (%s) to become ACTIVE: %s" ["vpc-1"]
                           (Errorf "Vpc status: '%s'" ["DOWN"])),
          mkState (mkResourceData "vpc-1" ∅ ∅)
                  [CallVpcCreate (mkVpcCreateOpts "" ""); CallVpcGet "vpc-1";
                   CallVpcGet "vpc-1"])
  ∧ resourceCCEClusterV3Create failedCreateWorld (startState emptyData)
    = Some (Some (ErrorfWrap "Error creating HuaweiCloud CCE cluster: %s" []
                             (UnexpectedStateError "Unavailable" ["Available"])),
            mkState emptyData
                    [CallClusterCreate (clusterCreateOpts failedCreateWorld emptyData);
                     CallClusterGet "cce-1"; CallClusterGet "cce-1"]).
Proof.
  split.
  - refine (proj1 (Create_failure_status_fatal failedCreateWorld (startState emptyData)
                     vpcCreating vpcDown (clusterIn "Creating") (clusterIn "Unavailable")
                     1 "CREATING"
                     (mkState (mkResourceData "vpc-1" ∅ ∅)
                              [CallVpcCreate (mkVpcCreateOpts "" ""); CallVpcGet "vpc-1"]))
                  eq_refl eq_refl _ _ eq_refl eq_refl).
    + eapply pendingPolls_S; [reflexivity| | |apply pendingPolls_O].
      * cbn. set_solver.
      * cbn. set_solver.
    + cbn. lia.
  - refine (proj2 (Create_failure_status_fatal failedCreateWorld (startState emptyData)
                     vpcCreating vpcDown (clusterIn "Creating") (clusterIn "Unavailable")
                     1 "Creating"
                     (mkState emptyData
                              [CallClusterCreate (clusterCreateOpts failedCreateWorld emptyData);
                               CallClusterGet "cce-1"]))
                  eq_refl eq_refl _ _ eq_refl eq_refl).
    + eapply pendingPolls_S; [reflexivity| | |apply pendingPolls_O].
      * cbn. set_solver.
      * cbn. set_solver.
    + cbn. lia.
Defined.

(** ** Update *)

Lemma clusterUpdateFields_changed d k v :
  (k, v) ∈ clusterUpdateFields d →
  HasChange d k = true ∧ v = GetString d k
  ∧ isForceNew resourceCCEClusterV3ForceNew k = false.
Proof.
  unfold clusterUpdateFields.
  destruct (HasChange d "description") eqn:Hc; [|by intros ?%elem_of_nil].
  by intros [= -> ->]%list_elem_of_singleton.
Qed.

Lemma vpcUpdateFields_changed d k v :
  (k, v) ∈ vpcUpdateFields d →
  HasChange d k = true ∧ v = GetString d k
  ∧ isForceNew resourceVirtualPrivateCloudV1ForceNew k = false.
Proof.
  unfold vpcUpdateFields.
  intros [Hin|Hin]%elem_of_app.
  - destruct (HasChange d "name") eqn:Hc; [|by apply elem_of_nil in Hin].
    by apply list_elem_of_singleton in Hin as [= -> ->].
  - destruct (HasChange d "cidr") eqn:Hc; [|by apply elem_of_nil in Hin].
    by apply list_elem_of_singleton in Hin as [= -> ->].
Qed.

(** C6. The body of an update request holds a field only if the record
    reports it changed, with the record's value for it, and none of the
    fields it can hold forces a new resource; the tags are sent only when
    they changed.  When the update calls succeed, Update ends by running
    Read: its outcome is Read's, from the state the calls left. *)
Theorem Update_sends_changed_then_reads (w : World) (st : State)
    (rc : option Clusters) (rv : option Vpc) :
  let d := rd st in
  (∀ k v, (k, v) ∈ clusterUpdateFields d →
          HasChange d k = true ∧ v = GetString d k
          ∧ isForceNew resourceCCEClusterV3ForceNew k = false)
  ∧ clusterUpdateOpts d = mkClusterUpdateOpts (fieldOr (clusterUpdateFields d) "description")
  ∧ (∀ k v, (k, v) ∈ vpcUpdateFields d →
            HasChange d k = true ∧ v = GetString d k
            ∧ isForceNew resourceVirtualPrivateCloudV1ForceNew k = false)
  ∧ vpcUpdateOpts d = mkVpcUpdateOpts (fieldOr (vpcUpdateFields d) "name")
                                      (fieldOr (vpcUpdateFields d) "cidr")
  ∧ (clientErr w CceV3 = None →
     onClusterUpdate w (calls st) (Id d) (clusterUpdateOpts d) = (rc, None) →
     resourceCCEClusterV3Update w st =
       resourceCCEClusterV3Read w
         (mkState d (calls st ++ [CallClusterUpdate (Id d) (clusterUpdateOpts d)])))
  ∧ (clientErr w NetworkingV1 = None →
     onVpcUpdate w (calls st) (Id d) (vpcUpdateOpts d) = (rv, None) →
     let st1 := mkState d (calls st ++ [CallVpcUpdate (Id d) (vpcUpdateOpts d)]) in
     (HasChange d "tags" = false →
      resourceVirtualPrivateCloudV1Update w st = resourceVirtualPrivateCloudV1Read w st1)
     ∧ (HasChange d "tags" = true →
        clientErr w NetworkingV2 = None →
        onTagsUpdate w (calls st1) d = None →
        resourceVirtualPrivateCloudV1Update w st =
          resourceVirtualPrivateCloudV1Read w
            (mkState d (calls st1 ++ [CallTagsUpdate (Id d)])))).
Proof.
  intros d. split_and!.
  - apply clusterUpdateFields_changed.
  - unfold clusterUpdateOpts, clusterUpdateFields, fieldOr.
    by destruct (HasChange d "description").
  - apply vpcUpdateFields_changed.
  - unfold vpcUpdateOpts, vpcUpdateFields, fieldOr.
    by destruct (HasChange d "name"), (HasChange d "cidr").
  - intros Hclient Hupd. unfold resourceCCEClusterV3Update. rewrite Hclient.
    unfold bind at 1, getData. unfold bind at 1, call. fold d. by rewrite Hupd.
  - intros Hclient Hupd st1. subst d.
    assert (Hrun : resourceVirtualPrivateCloudV1Update w st =
                   orElse
                     (if HasChange (rd st) "tags" then
                        match clientErr w NetworkingV2 with
                        | Some e =>
                            ret (Some (ErrorfWrap "Error creating Huaweicloud vpc client: %s"
                                                  [] e))
                        | None =>
                            let! tagErr := call (CallTagsUpdate (Id (rd st)))
                                                (λ h, onTagsUpdate w h (rd st)) in
                            match tagErr with
                            | Some e => ret (Some (ErrorfWrap "Error updating tags of VPC %s: %s"
                                                              [Id (rd st)] e))
                            | None => ret None
                            end
                        end
                      else ret None)
                     (resourceVirtualPrivateCloudV1Read w) st1).
    { unfold resourceVirtualPrivateCloudV1Update. rewrite Hclient.
      unfold bind at 1, getData. unfold bind at 1, call. cbn beta. by rewrite Hupd. }
    rewrite Hrun. clear Hrun. split.
    + intros Htag. by rewrite Htag.
    + intros Htag Hclient2 Htags. rewrite Htag, Hclient2. unfold orElse.
      unfold bind at 1. unfold bind at 1, call. by rewrite Htags.
Qed.

Lemma Update_sends_changed_then_reads_witness :
  clusterUpdateOpts editedCluster = mkClusterUpdateOpts "staging"
  ∧ vpcUpdateOpts editedVpc = mkVpcUpdateOpts "net2" ""
  ∧ resourceCCEClusterV3Update goneWorld (startState editedCluster)
    = resourceCCEClusterV3Read goneWorld
        (mkState editedCluster [CallClusterUpdate "cce-1" (mkClusterUpdateOpts "staging")])
  ∧ resourceVirtualPrivateCloudV1Update goneWorld (startState editedVpc)
    = resourceVirtualPrivateCloudV1Read goneWorld
        (mkState editedVpc [CallVpcUpdate "vpc-1" (mkVpcUpdateOpts "net2" "");
                            CallTagsUpdate "vpc-1"]).
Proof.
  destruct (Update_sends_changed_then_reads goneWorld (startState editedCluster) None None)
    as (_ & Hopts & _ & _ & Hcluster & _).
  destruct (Update_sends_changed_then_reads goneWorld (startState editedVpc) None None)
    as (_ & _ & _ & Hvopts & _ & Hvpc).
  split_and!.
  - exact Hopts.
  - exact Hvopts.
  - exact (Hcluster eq_refl eq_refl).
  - exact (proj2 (Hvpc eq_refl eq_refl) eq_refl eq_refl eq_refl).
Defined.

(** ** Delete *)

(** The end of both Delete handlers: wait, then clear the identity. *)
Lemma wait_then_clear_success conf (wrap : error → error) st1 st' :
  (let! err := WaitForState conf in
   match err with
   | Some e => ret (Some (wrap e))
   | None => let! _ := SetId "" in ret None
   end) st1 = Some (None, st')
  ↔ ∃ stf, waitLoop conf (Timeout conf) "" st1 = Some (None, stf)
           ∧ st' = mkState (mkResourceData "" (attrs (rd stf)) (changed (rd stf)))
                           (calls stf).
Proof.
  unfold bind at 1, WaitForState.
  destruct (waitLoop conf (Timeout conf) "" st1) as [[[e|] stf]|]; split;
    try done; try (by intros (? & ? & ?)).
  - intros [= <-]. by exists stf.
  - by intros (? & [= <-] & ->).
Qed.

Lemma wait_then_clear_error conf (wrap : error → error) st1 e st' :
  (let! err := WaitForState conf in
   match err with
   | Some e => ret (Some (wrap e))
   | None => let! _ := SetId "" in ret None
   end) st1 = Some (Some e, st')
  → ∃ e0, waitLoop conf (Timeout conf) "" st1 = Some (Some e0, st') ∧ e = wrap e0.
Proof.
  unfold bind at 1, WaitForState.
  destruct (waitLoop conf (Timeout conf) "" st1) as [[[e0|] stf]|]; [|done..].
  intros [= <- <-]. by exists e0.
Qed.

(** The cluster refresh reports the deleted status exactly on a 404. *)
Lemma waitForCCEClusterDelete_deleted w clusterId st v s stf :
  waitForCCEClusterDelete w clusterId st = Some ((v, s, None), stf)
  ∧ s ∈ Target (clusterDeleteConf w clusterId)
  ↔ ∃ r e, onClusterGet w (calls st) clusterId = (r, Some e)
           ∧ isErrDefault404 e = true
           ∧ v = ifaceClusters r ∧ s = "Deleted"
           ∧ stf = mkState (rd st) (calls st ++ [CallClusterGet clusterId]).
Proof.
  cbn [Target clusterDeleteConf]. split.
  - intros [Hr Ht]. apply list_elem_of_singleton in Ht as ->.
    unfold waitForCCEClusterDelete in Hr. run_cases. by eexists _, _.
  - intros (r & e & Hget & H404 & -> & -> & ->).
    split; [|by apply list_elem_of_singleton].
    unfold waitForCCEClusterDelete, bind, call. by rewrite Hget, H404.
Qed.

(** The VPC refresh reports the deleted status exactly on a 404, from
    the get or from the removal call that follows a successful get. *)
Lemma waitForVpcDelete_deleted w vpcId st v s stf :
  waitForVpcDelete w vpcId st = Some ((v, s, None), stf)
  ∧ s ∈ Target (vpcDeleteConf w vpcId)
  ↔ ∃ r e, v = ifaceVpc r ∧ s = "DELETED" ∧ isErrDefault404 e = true
           ∧ ((onVpcGet w (calls st) vpcId = (r, Some e)
               ∧ stf = mkState (rd st) (calls st ++ [CallVpcGet vpcId]))
              ∨ (onVpcGet w (calls st) vpcId = (r, None)
                 ∧ onVpcDelete w (calls st ++ [CallVpcGet vpcId]) vpcId = Some e
                 ∧ stf = mkState (rd st)
                                 ((calls st ++ [CallVpcGet vpcId]) ++ [CallVpcDelete vpcId]))).
Proof.
  cbn [Target vpcDeleteConf]. split.
  - intros [Hr Ht]. apply list_elem_of_singleton in Ht as ->.
    unfold waitForVpcDelete in Hr. run_cases; eexists _, _; eauto 10.
  - intros (r & e & -> & -> & H404 & [[Hget ->]|(Hget & Hdel & ->)]);
      (split; [|by apply list_elem_of_singleton]);
      unfold waitForVpcDelete, bind, call; rewrite Hget; cbn [rd calls].
    + by rewrite H404.
    + by rewrite Hdel, H404.
Qed.

(** C7, counterexample. In the world where removal is answered 409 twice
    before it goes through, VPC Delete opens with a get, not with a
    removal call, and makes three removal calls, one per poll. *)
Lemma vpcDelete_removes_inside_loop :
  resourceVirtualPrivateCloudV1Delete busyDeleteWorld
    (startState (mkResourceData "vpc-1" ∅ ∅))
  = Some (None,
          mkState emptyData
                  [CallVpcGet "vpc-1"; CallVpcDelete "vpc-1";
                   CallVpcGet "vpc-1"; CallVpcDelete "vpc-1";
                   CallVpcGet "vpc-1"; CallVpcDelete "vpc-1";
                   CallVpcGet "vpc-1"]).
Proof. reflexivity. Qed.

Lemma clusterDelete_wait_frame w clusterId n last st r st' :
  waitLoop (clusterDeleteConf w clusterId) n last st = Some (r, st') →
  rd st' = rd st
  ∧ ∃ l, calls st' = (calls st ++ l)%list ∧ Forall (λ c, c = CallClusterGet clusterId) l.
Proof.
  apply (waitLoop_frame (λ c, c = CallClusterGet clusterId)).
  intros st0 r0 st0' Hr.
  destruct (waitForCCEClusterDelete_calls _ _ _ _ _ Hr) as [Hrd Hcalls].
  split; [done|]. exists [CallClusterGet clusterId]. split; [done|]. by constructor.
Qed.

Lemma vpcDelete_wait_frame w vpcId n last st r st' :
  waitLoop (vpcDeleteConf w vpcId) n last st = Some (r, st') →
  rd st' = rd st
  ∧ ∃ l, calls st' = (calls st ++ l)%list
         ∧ Forall (λ c, c = CallVpcGet vpcId ∨ c = CallVpcDelete vpcId) l.
Proof.
  apply (waitLoop_frame (λ c, c = CallVpcGet vpcId ∨ c = CallVpcDelete vpcId)).
  intros st0 r0 st0'. apply waitForVpcDelete_calls.
Qed.

Lemma clusterDelete_run w st :
  clientErr w CceV3 = None →
  resourceCCEClusterV3Delete w st =
    let id := Id (rd st) in
    let st1 := mkState (rd st) (calls st ++ [CallClusterDelete id]) in
    match onClusterDelete w (calls st) id with
    | Some e => Some (Some (ErrorfWrap "Error deleting HuaweiCloud CCE Cluster: %s" [] e), st1)
    | None =>
        (let! err := WaitForState (clusterDeleteConf w id) in
         match err with
         | Some e => ret (Some (ErrorfWrap "Error deleting HuaweiCloud CCE cluster: %s" [] e))
         | None => let! _ := SetId "" in ret None
         end) st1
    end.
Proof.
  intros Hclient. unfold resourceCCEClusterV3Delete. rewrite Hclient.
  unfold bind at 1, getData. unfold bind at 1, call.
  by destruct (onClusterDelete w (calls st) (Id (rd st))).
Qed.

Lemma vpcDelete_run w st :
  clientErr w NetworkingV1 = None →
  resourceVirtualPrivateCloudV1Delete w st =
    (let! err := WaitForState (vpcDeleteConf w (Id (rd st))) in
     match err with
     | Some e => ret (Some (ErrorfWrap "Error deleting Huaweicloud Vpc: %s" [] e))
     | None => let! _ := SetId "" in ret None
     end) st.
Proof.
  intros Hclient. unfold resourceVirtualPrivateCloudV1Delete. by rewrite Hclient.
Qed.

(** C7, amended. Cluster Delete first makes one removal call and then
    polls with gets only.  VPC Delete makes no removal call before
    polling: every call it makes is a get or a removal call of a poll,
    starting from the state it was entered in.  Either Delete succeeds
    exactly when, before the timeout and after pending polls only, a poll
    is answered not-found (404): by the get for both resources, or, for
    the VPC, by the removal call that follows a successful get. *)
Theorem Delete_polls_until_not_found (w : World) (st st' : State) :
  let id := Id (rd st) in
  (clientErr w CceV3 = None →
   (∀ res stx, resourceCCEClusterV3Delete w st = Some (res, stx) →
      ∃ l, calls stx = (calls st ++ CallClusterDelete id :: l)%list
           ∧ Forall (λ c, c = CallClusterGet id) l)
   ∧ (resourceCCEClusterV3Delete w st = Some (None, st') ↔
      onClusterDelete w (calls st) id = None
      ∧ ∃ k last' stk r e,
          (k < deletePolls w)%nat
          ∧ pendingPolls (clusterDeleteConf w id) k ""
              (mkState (rd st) (calls st ++ [CallClusterDelete id])) last' stk
          ∧ onClusterGet w (calls stk) id = (r, Some e)
          ∧ isErrDefault404 e = true
          ∧ st' = mkState (mkResourceData "" (attrs (rd stk)) (changed (rd stk)))
                          (calls stk ++ [CallClusterGet id])))
  ∧
  (clientErr w NetworkingV1 = None →
   (∀ res stx, resourceVirtualPrivateCloudV1Delete w st = Some (res, stx) →
      ∃ l, calls stx = (calls st ++ l)%list
           ∧ Forall (λ c, c = CallVpcGet id ∨ c = CallVpcDelete id) l)
   ∧ (resourceVirtualPrivateCloudV1Delete w st = Some (None, st') ↔
      ∃ k last' stk r e,
        (k < deletePolls w)%nat
        ∧ pendingPolls (vpcDeleteConf w id) k "" st last' stk
        ∧ isErrDefault404 e = true
        ∧ ((onVpcGet w (calls stk) id = (r, Some e)
            ∧ st' = mkState (mkResourceData "" (attrs (rd stk)) (changed (rd stk)))
                            (calls stk ++ [CallVpcGet id]))
           ∨ (onVpcGet w (calls stk) id = (r, None)
              ∧ onVpcDelete w (calls stk ++ [CallVpcGet id]) id = Some e
              ∧ st' = mkState (mkResourceData "" (attrs (rd stk)) (changed (rd stk)))
                              ((calls stk ++ [CallVpcGet id]) ++ [CallVpcDelete id]))))).
Proof.
  intros id. split; intros Hclient.
  - rewrite (clusterDelete_run _ _ Hclient). cbn zeta. fold id.
    destruct (onClusterDelete w (calls st) id) as [e|] eqn:Hdel.
    { split.
      - intros res stx [= <- <-]. exists []. by split.
      - split; [done|]. by intros [? _]. }
    split.
    + intros [e|] stx Hrun.
      * apply wait_then_clear_error in Hrun as (e0 & Hw & _).
        apply clusterDelete_wait_frame in Hw as (_ & l & Hl & HP).
        exists l. split; [|done]. rewrite Hl. cbn [calls]. by rewrite <- app_assoc.
      * apply wait_then_clear_success in Hrun as (stf & Hw & ->).
        apply clusterDelete_wait_frame in Hw as (_ & l & Hl & HP).
        exists l. split; [|done]. cbn [calls]. rewrite Hl. cbn [calls].
        by rewrite <- app_assoc.
    + rewrite wait_then_clear_success. split.
      * intros (stf & Hw & ->). split; [done|].
        apply waitLoop_success_iff in Hw
          as (k & last' & stk & v & s & Hk & Hpp & Hr & Ht).
        destruct (proj1 (waitForCCEClusterDelete_deleted w id stk v s stf) (conj Hr Ht))
          as (r & e & Hget & H404 & _ & _ & ->).
        by exists k, last', stk, r, e.
      * intros (_ & k & last' & stk & r & e & Hk & Hpp & Hget & H404 & ->).
        exists (mkState (rd stk) (calls stk ++ [CallClusterGet id])).
        split; [|reflexivity].
        apply waitLoop_success_iff.
        destruct (proj2 (waitForCCEClusterDelete_deleted w id stk (ifaceClusters r) "Deleted"
                           (mkState (rd stk) (calls stk ++ [CallClusterGet id]))))
          as [Hr Ht]; [by exists r, e|].
        by exists k, last', stk, (ifaceClusters r), "Deleted".
  - rewrite (vpcDelete_run _ _ Hclient). fold id. split.
    + intros [e|] stx Hrun.
      * apply wait_then_clear_error in Hrun as (e0 & Hw & _).
        by apply vpcDelete_wait_frame in Hw as (_ & l & Hl & HP); exists l.
      * apply wait_then_clear_success in Hrun as (stf & Hw & ->).
        by apply vpcDelete_wait_frame in Hw as (_ & l & Hl & HP); exists l.
    + rewrite wait_then_clear_success. split.
      * intros (stf & Hw & ->).
        apply waitLoop_success_iff in Hw
          as (k & last' & stk & v & s & Hk & Hpp & Hr & Ht).
        destruct (proj1 (waitForVpcDelete_deleted w id stk v s stf) (conj Hr Ht))
          as (r & e & _ & _ & H404 & [[Hget ->]|(Hget & Hdel & ->)]);
          exists k, last', stk, r, e; split_and!; try done; [by left|by right].
      * intros (k & last' & stk & r & e & Hk & Hpp & H404 & Hcase).
        assert (∃ stf, (waitForVpcDelete w id stk = Some ((ifaceVpc r, "DELETED", None), stf)
                        ∧ "DELETED" ∈ Target (vpcDeleteConf w id))
                       ∧ st' = mkState (mkResourceData "" (attrs (rd stf)) (changed (rd stf)))
                                       (calls stf)) as (stf & [Hr Ht] & ->).
        { destruct Hcase as [[Hget ->]|(Hget & Hdel & ->)].
          - exists (mkState (rd stk) (calls stk ++ [CallVpcGet id])).
            split; [|done]. apply waitForVpcDelete_deleted. exists r, e.
            split_and!; [done|done|done|]. by left.
          - exists (mkState (rd stk) ((calls stk ++ [CallVpcGet id]) ++ [CallVpcDelete id])).
            split; [|done]. apply waitForVpcDelete_deleted. exists r, e.
            split_and!; [done|done|done|]. by right. }
        exists stf. split; [|done].
        apply waitLoop_success_iff. by exists k, last', stk, (ifaceVpc r), "DELETED".
Qed.

Lemma Delete_polls_until_not_found_witness :
  let st := startState (mkResourceData "cce-1" ∅ ∅) in
  let st' := mkState emptyData
                     [CallClusterDelete "cce-1"; CallClusterGet "cce-1";
                      CallClusterGet "cce-1"; CallClusterGet "cce-1"] in
  (∃ l, calls st' = (calls st ++ CallClusterDelete "cce-1" :: l)%list
        ∧ Forall (λ c, c = CallClusterGet "cce-1") l)
  ∧ (onClusterDelete busyDeleteWorld (calls st) "cce-1" = None
     ∧ ∃ k last' stk r e,
         (k < deletePolls busyDeleteWorld)%nat
         ∧ pendingPolls (clusterDeleteConf busyDeleteWorld "cce-1") k ""
             (mkState (rd st) (calls st ++ [CallClusterDelete "cce-1"])) last' stk
         ∧ onClusterGet busyDeleteWorld (calls stk) "cce-1" = (r, Some e)
         ∧ isErrDefault404 e = true
         ∧ st' = mkState (mkResourceData "" (attrs (rd stk)) (changed (rd stk)))
                         (calls stk ++ [CallClusterGet "cce-1"])).
Proof.
  intros st st'.
  destruct (Delete_polls_until_not_found busyDeleteWorld st st') as [Hcluster _].
  destruct (Hcluster eq_refl) as [Htrace Hiff].
  split.
  - exact (Htrace None st' eq_refl).
  - exact (proj1 Hiff eq_refl).
Defined.

(** ** Which upstream errors reach the caller *)








Lemma delete_error_wrapped w st e0 stx :
  (clientErr w CceV3 = None →
   resourceCCEClusterV3Delete w st = Some (Some e0, stx) →
   (onClusterDelete w (calls st) (Id (rd st)) = None
    ∧ ∃ e, waitLoop (clusterDeleteConf w (Id (rd st))) (deletePolls w) ""
             (mkState (rd st) (calls st ++ [CallClusterDelete (Id (rd st))]))
           = Some (Some e, stx)
           ∧ e0 = ErrorfWrap "Error deleting HuaweiCloud CCE cluster: %s" [] e)
   ∨ (∃ e, onClusterDelete w (calls st) (Id (rd st)) = Some e
           ∧ e0 = ErrorfWrap "Error deleting HuaweiCloud CCE Cluster: %s" [] e
           ∧ stx = mkState (rd st) (calls st ++ [CallClusterDelete (Id (rd st))])))
  ∧ (clientErr w NetworkingV1 = None →
     resourceVirtualPrivateCloudV1Delete w st = Some (Some e0, stx) →
     ∃ e, waitLoop (vpcDeleteConf w (Id (rd st))) (deletePolls w) "" st = Some (Some e, stx)
          ∧ e0 = ErrorfWrap "Error deleting Huaweicloud Vpc: %s" [] e).
Proof.
  split; intros Hclient.
  - rewrite (clusterDelete_run _ _ Hclient). cbn zeta.
    destruct (onClusterDelete w (calls st) (Id (rd st))) as [e|].
    + intros [= <- <-]. right. by exists e.
    + intros (e & Hw & ->)%wait_then_clear_error. left. split; [done|]. by exists e.
  - rewrite (vpcDelete_run _ _ Hclient).
    intros (e & Hw & ->)%wait_then_clear_error. by exists e.
Qed.



(** ** Identity *)

Lemma waitForCCEClusterActive_frame w clusterId n last st r st' :
  waitLoop (clusterCreateConf w clusterId) n last st = Some (r, st') →
  rd st' = rd st
  ∧ ∃ l, calls st' = (calls st ++ l)%list ∧ Forall (λ c, c = CallClusterGet clusterId) l.
Proof.
  apply (waitLoop_frame (λ c, c = CallClusterGet clusterId)).
  intros st0 r0 st0' Hr. cbn [Refresh clusterCreateConf] in Hr.
  unfold waitForCCEClusterActive in Hr. run_cases;
    (split; [done|]); exists [CallClusterGet clusterId]; (split; [done|]); by constructor.
Qed.

(** X17. Delete clears the identity when it succeeds and leaves the record
    alone when it returns an error, for both resources. *)
Lemma Delete_identity w st res stx :
  (clientErr w CceV3 = None →
   resourceCCEClusterV3Delete w st = Some (res, stx) →
   match res with
   | None => rd stx = mkResourceData "" (attrs (rd st)) (changed (rd st))
   | Some _ => rd stx = rd st
   end)
  ∧ (clientErr w NetworkingV1 = None →
     resourceVirtualPrivateCloudV1Delete w st = Some (res, stx) →
     match res with
     | None => rd stx = mkResourceData "" (attrs (rd st)) (changed (rd st))
     | Some _ => rd stx = rd st
     end).
Proof.
  split; intros Hclient.
  - rewrite (clusterDelete_run _ _ Hclient). cbn zeta.
    destruct (onClusterDelete w (calls st) (Id (rd st))) as [e|].
    { by intros [= <- <-]. }
    destruct res as [e0|].
    + intros (e & Hw & _)%wait_then_clear_error.
      by apply clusterDelete_wait_frame in Hw as [Hrd _].
    + intros (stf & Hw & ->)%wait_then_clear_success.
      apply clusterDelete_wait_frame in Hw as [Hrd _]. cbn [rd] in *. by rewrite Hrd.
  - rewrite (vpcDelete_run _ _ Hclient). destruct res as [e0|].
    + intros (e & Hw & _)%wait_then_clear_error.
      by apply vpcDelete_wait_frame in Hw as [Hrd _].
    + intros (stf & Hw & ->)%wait_then_clear_success.
      apply vpcDelete_wait_frame in Hw as [Hrd _]. cbn [rd] in *. by rewrite Hrd.
Qed.

(** C9, where the code departs from it. In cluster Create the identity
    is set only after the wait: when the create call has succeeded and
    the wait then ends with an error, Create returns that error wrapped
    and the identity is still what it was, not the id the cloud assigned. *)
Theorem clusterCreate_wait_error_identity_unset (w : World) (st : State)
    (create : Clusters) (e : error) (stw : State) :
  clientErr w CceV3 = None →
  onClusterCreate w (calls st) (clusterCreateOpts w (rd st)) = (Some create, None) →
  waitLoop (clusterCreateConf w (MetadataId create)) (createPolls w) ""
           (mkState (rd st) (calls st ++ [CallClusterCreate (clusterCreateOpts w (rd st))]))
    = Some (Some e, stw) →
  resourceCCEClusterV3Create w st
    = Some (Some (ErrorfWrap "Error creating HuaweiCloud CCE cluster: %s" [] e), stw)
  ∧ Id (rd stw) = Id (rd st).
Proof.
  intros Hclient Hcreate Hwait. split.
  - unfold resourceCCEClusterV3Create. rewrite Hclient.
    unfold bind at 1, getData. unfold bind at 1, call. rewrite Hcreate.
    unfold bind at 1, deref, ret. unfold bind at 1, WaitForState.
    cbn [Timeout clusterCreateConf rd calls]. by rewrite Hwait.
  - apply waitForCCEClusterActive_frame in Hwait as [Hrd _]. by rewrite Hrd.
Qed.

Lemma clusterCreate_wait_error_identity_unset_witness :
  ∃ e stw,
    onClusterCreate failedCreateWorld [] (clusterCreateOpts failedCreateWorld emptyData)
      = (Some (clusterIn "Creating"), None)
    ∧ MetadataId (clusterIn "Creating") = "cce-1"
    ∧ resourceCCEClusterV3Create failedCreateWorld (startState emptyData) = Some (Some e, stw)
    ∧ Id (rd stw) = "".
Proof.
  eexists _, _. split_and!; [reflexivity|reflexivity|..];
    apply (clusterCreate_wait_error_identity_unset failedCreateWorld (startState emptyData)
             (clusterIn "Creating")
             (UnexpectedStateError "Unavailable" ["Available"])
             (mkState emptyData
                      [CallClusterCreate (clusterCreateOpts failedCreateWorld emptyData);
                       CallClusterGet "cce-1"; CallClusterGet "cce-1"])
             eq_refl eq_refl eq_refl).
Defined.

(** ** The cluster delete refresh *)



(** * Further properties *)

(** ** The data source, beyond the lookup itself *)

(** The whole of the data-source Read, answer by answer. *)
Lemma dataSourceRead_run w st :
  dataSourceDmsMaintainWindowV1Read w st =
    match clientErr w DmsV1 with
    | Some e => Some (Some (ErrorfWrap "Error creating HuaweiCloud dms client: %s" [] e), st)
    | None =>
        let st1 := mkState (rd st) (calls st ++ [CallMaintainWindowsGet]) in
        match onMaintainWindowsGet w (calls st) with
        | (_, Some e) => Some (Some e, st1)
        | (None, None) => None
        | (Some v, None) =>
            match List.filter (keepMV (rd st)) (MaintainWindows v) with
            | [] => Some (Some noResults, st1)
            | mw :: _ => Some (None, windowWritten st mw)
            end
        end
    end.
Proof.
  unfold dataSourceDmsMaintainWindowV1Read.
  destruct (clientErr w DmsV1) as [e|]; [done|].
  rewrite bind_call.
  destruct (onMaintainWindowsGet w (calls st)) as [[v|] [e|]]; [done| |done|done].
  rewrite bind_deref_Some, bind_getData. cbn [rd].
  rewrite filterLoop_filter, app_nil_l.
  by destruct (List.filter (keepMV (rd st)) (MaintainWindows v)).
Qed.

Lemma dataSourceRead_success w st st' :
  dataSourceDmsMaintainWindowV1Read w st = Some (None, st') →
  ∃ v mw rest,
    clientErr w DmsV1 = None
    ∧ onMaintainWindowsGet w (calls st) = (Some v, None)
    ∧ List.filter (keepMV (rd st)) (MaintainWindows v) = mw :: rest
    ∧ st' = windowWritten st mw.
Proof.
  rewrite dataSourceRead_run.
  destruct (clientErr w DmsV1) as [e|]; [done|]. cbn zeta.
  destruct (onMaintainWindowsGet w (calls st)) as [[v|] [e|]]; [done| |done|done].
  destruct (List.filter (keepMV (rd st)) (MaintainWindows v)) as [|mw rest] eqn:Hf; [done|].
  intros [= <-]. by exists v, mw, rest.
Qed.

Lemma keepMV_true_iff d mv :
  keepMV d mv = true ↔
    (GetInt d "seq" = 0 ∨ mwID mv = GetInt d "seq")
    ∧ (GetString d "begin" = "" ∨ mwBegin mv = GetString d "begin")
    ∧ (GetString d "end" = "" ∨ mwEnd mv = GetString d "end")
    ∧ mwDefault mv = GetBool d "default".
Proof.
  unfold keepMV.
  repeat case_bool_decide; simpl; split; try done; try tauto; naive_solver.
Qed.


(** X2. When the client cannot be built, Read returns that error wrapped and
    sends nothing; when fetching the list fails, Read returns the
    upstream error as it is, after that one request.  Either way the
    record is left as it was. *)
Theorem dataSourceRead_failures (w : World) (st : State) (e : error) :
  (clientErr w DmsV1 = Some e →
   dataSourceDmsMaintainWindowV1Read w st
   = Some (Some (ErrorfWrap "Error creating HuaweiCloud dms client: %s" [] e), st))
  ∧ (clientErr w DmsV1 = None →
     (∃ v, onMaintainWindowsGet w (calls st) = (v, Some e)) →
     dataSourceDmsMaintainWindowV1Read w st
     = Some (Some e, mkState (rd st) (calls st ++ [CallMaintainWindowsGet]))).
Proof.
  rewrite dataSourceRead_run. split.
  - by intros ->.
  - intros -> [v ->]. by destruct v.
Qed.

Lemma dataSourceRead_failures_witness :
  dataSourceDmsMaintainWindowV1Read goneWorld (startState emptyData)
  = Some (Some unreachable, mkState emptyData [CallMaintainWindowsGet]).
Proof.
  exact (proj2 (dataSourceRead_failures goneWorld (startState emptyData) unreachable)
           eq_refl (ex_intro _ None eq_refl)).
Defined.

(** X3. A successful Read sends one request and writes nothing but the
    identity and the keys begin, end and default: every other key, seq
    included, and the change set stay as they were. *)
Theorem dataSourceRead_writes_only_window_keys (w : World) (st st' : State) :
  dataSourceDmsMaintainWindowV1Read w st = Some (None, st') →
  calls st' = (calls st ++ [CallMaintainWindowsGet])%list
  ∧ changed (rd st') = changed (rd st)
  ∧ attrs (rd st') !! "seq" = attrs (rd st) !! "seq"
  ∧ ∀ k, k ≠ "begin" → k ≠ "end" → k ≠ "default" →
         attrs (rd st') !! k = attrs (rd st) !! k.
Proof.
  intros (v & mw & rest & _ & _ & _ & ->)%dataSourceRead_success.
  cbn [windowWritten rd calls attrs changed]. split_and!; [done|done|by simplify_map_eq|].
  intros k Hb He Hd. by rewrite !lookup_insert_ne.
Qed.

Lemma dataSourceRead_writes_only_window_keys_witness :
  let st := startState (mkResourceData "" (<["seq" := VInt 3]> ∅) ∅) in
  let st' := windowWritten st window3 in
  dataSourceDmsMaintainWindowV1Read healthyWorld st = Some (None, st')
  ∧ attrs (rd st') !! "seq" = Some (VInt 3)
  ∧ calls st' = [CallMaintainWindowsGet].
Proof.
  intros st st'.
  assert (Hrun : dataSourceDmsMaintainWindowV1Read healthyWorld st = Some (None, st'))
    by (vm_compute; reflexivity).
  destruct (dataSourceRead_writes_only_window_keys healthyWorld st st' Hrun)
    as (Hcalls & _ & Hseq & _).
  split_and!; [exact Hrun|exact Hseq|exact Hcalls].
Defined.

Lemma windowWritten_gets st mw :
  GetInt (rd (windowWritten st mw)) "seq" = GetInt (rd st) "seq"
  ∧ GetString (rd (windowWritten st mw)) "begin" = mwBegin mw
  ∧ GetString (rd (windowWritten st mw)) "end" = mwEnd mw
  ∧ GetBool (rd (windowWritten st mw)) "default" = mwDefault mw.
Proof.
  unfold GetInt, GetString, GetBool. cbn [windowWritten rd attrs].
  split_and!; by simplify_map_eq.
Qed.

Lemma filter_head_keeps d mw rest ws :
  List.filter (keepMV d) ws = mw :: rest → keepMV d mw = true.
Proof.
  intros Hf. assert (Hin : In mw (List.filter (keepMV d) ws)) by (rewrite Hf; by left).
  by apply filter_In in Hin as [_ ?].
Qed.

(** X4. A successful Read never contradicts a filter that was supplied: a
    non-zero seq becomes the identity, a non-empty begin or end is
    written back unchanged, and the default flag keeps the value it read
    as. *)
Theorem dataSourceRead_respects_filters (w : World) (st st' : State) :
  dataSourceDmsMaintainWindowV1Read w st = Some (None, st') →
  (GetInt (rd st) "seq" ≠ 0 → Id (rd st') = pretty (GetInt (rd st) "seq"))
  ∧ (GetString (rd st) "begin" ≠ "" →
     GetString (rd st') "begin" = GetString (rd st) "begin")
  ∧ (GetString (rd st) "end" ≠ "" →
     GetString (rd st') "end" = GetString (rd st) "end")
  ∧ GetBool (rd st') "default" = GetBool (rd st) "default".
Proof.
  intros (v & mw & rest & _ & _ & Hf & ->)%dataSourceRead_success.
  apply filter_head_keeps, keepMV_true_iff in Hf as (Hs & Hb & He & Hd).
  destruct (windowWritten_gets st mw) as (_ & -> & -> & ->).
  cbn [windowWritten rd Id]. split_and!; [|naive_solver..]. intros Hne.
  destruct Hs as [?| ->]; done.
Qed.

Lemma dataSourceRead_respects_filters_witness :
  let st := startState (mkResourceData "" (<["seq" := VInt 3]> ∅) ∅) in
  let st' := windowWritten st window3 in
  dataSourceDmsMaintainWindowV1Read healthyWorld st = Some (None, st')
  ∧ Id (rd st') = "3".
Proof.
  intros st st'.
  assert (Hrun : dataSourceDmsMaintainWindowV1Read healthyWorld st = Some (None, st'))
    by (vm_compute; reflexivity).
  destruct (dataSourceRead_respects_filters healthyWorld st st' Hrun) as (Hseq & _).
  split; [exact Hrun|]. apply Hseq. vm_compute. discriminate.
Defined.

Lemma filter_head_stronger (d d1 : ResourceData) mw rest ws :
  (∀ x, keepMV d1 x = true → keepMV d x = true) →
  keepMV d1 mw = true →
  List.filter (keepMV d) ws = mw :: rest →
  ∃ rest1, List.filter (keepMV d1) ws = mw :: rest1.
Proof.
  intros Himp Hmw. induction ws as [|x ws IH]; simpl; [done|].
  destruct (keepMV d x) eqn:Hx.
  - intros [= -> _]. rewrite Hmw. by eexists.
  - intros Hf. destruct (keepMV d1 x) eqn:Hx1; [|by apply IH].
    apply Himp in Hx1. congruence.
Qed.

(** X5. Read is stable: run again on the record it produced, against the
    same list of windows, it settles on the same window and leaves the
    record exactly as it is. *)
Theorem dataSourceRead_stable (w : World) (st st1 : State) :
  dataSourceDmsMaintainWindowV1Read w st = Some (None, st1) →
  onMaintainWindowsGet w (calls st1) = onMaintainWindowsGet w (calls st) →
  ∃ st2, dataSourceDmsMaintainWindowV1Read w st1 = Some (None, st2)
         ∧ rd st2 = rd st1.
Proof.
  intros (v & mw & rest & Hclient & Hget & Hf & ->)%dataSourceRead_success Hsame.
  pose proof (filter_head_keeps _ _ _ _ Hf) as Hmw.
  apply keepMV_true_iff in Hmw as (Hs & Hb & He & Hd).
  destruct (windowWritten_gets st mw) as (Gs & Gb & Ge & Gd).
  destruct (filter_head_stronger (rd st) (rd (windowWritten st mw)) mw rest
              (MaintainWindows v)) as [rest1 Hf1]; [| |done|].
  { intros x (Xs & Xb & Xe & Xd)%keepMV_true_iff. apply keepMV_true_iff.
    rewrite Gs, Gb, Ge, Gd in *. split_and!; [done|..|congruence].
    - destruct Hb as [?| Hb]; [by left|].
      destruct Xb as [Xb|Xb]; [left|right]; congruence.
    - destruct He as [?| He]; [by left|].
      destruct Xe as [Xe|Xe]; [left|right]; congruence. }
  { apply keepMV_true_iff. rewrite Gs, Gb, Ge, Gd. naive_solver. }
  rewrite dataSourceRead_run, Hclient. cbn zeta. rewrite Hsame, Hget, Hf1.
  eexists. split; [reflexivity|].
  cbn [windowWritten rd calls Id attrs changed]. f_equal.
  apply map_eq. intros k. rewrite !lookup_insert. by repeat case_decide.
Qed.

Lemma dataSourceRead_stable_witness :
  let st := startState (mkResourceData "" (<["begin" := VString "02:00:00"]> ∅) ∅) in
  let st1 := windowWritten st window2 in
  ∃ st2, dataSourceDmsMaintainWindowV1Read healthyWorld st1 = Some (None, st2)
         ∧ rd st2 = rd st1.
Proof.
  intros st st1.
  assert (Hrun : dataSourceDmsMaintainWindowV1Read healthyWorld st = Some (None, st1))
    by (vm_compute; reflexivity).
  exact (dataSourceRead_stable healthyWorld st st1 Hrun eq_refl).
Defined.

(** ** The extended parameters of a cluster *)

Lemma GetOk_string_insert d k key (m : gmap string string) :
  match GetOk d k with
  | Some (VString s) => <[key := s]> m
  | _ => m
  end
  = if bool_decide (GetString d k = "") then m else <[key := GetString d k]> m.
Proof.
  unfold GetOk, GetString.
  destruct (attrs d !! k) as [[z|s|b|mm|l]|]; simpl;
    repeat case_bool_decide; simpl; try done; by destruct b.
Qed.

Lemma GetOk_bool_insert d k key v (m : gmap string string) :
  match GetOk d k with
  | Some (VBool true) => <[key := v]> m
  | _ => m
  end
  = if GetBool d k then <[key := v]> m else m.
Proof.
  unfold GetOk, GetBool.
  destruct (attrs d !! k) as [[z|s|b|mm|l]|]; simpl;
    repeat case_bool_decide; simpl; try done; by destruct b.
Qed.

(** X6. The dedicated fields win over the free-form map: multi_az,
    kube_proxy_mode and eip, when set, fix the entries clusterAZ,
    kubeProxyMode and clusterExternalIP whatever extend_param says for
    them; every other entry of extend_param is passed on as it is, and
    an unset field leaves its entry to extend_param. *)
Theorem resourceClusterExtendParamV3_overrides (d : ResourceData) :
  let m := resourceClusterExtendParamV3 d in
  let ext := GetMap d "extend_param" in
  (∀ k, k ≠ "clusterAZ" → k ≠ "kubeProxyMode" → k ≠ "clusterExternalIP" →
        m !! k = ext !! k)
  ∧ m !! "clusterAZ"
    = (if GetBool d "multi_az" then Some "multi_az" else ext !! "clusterAZ")
  ∧ m !! "kubeProxyMode"
    = (if bool_decide (GetString d "kube_proxy_mode" = "") then ext !! "kubeProxyMode"
       else Some (GetString d "kube_proxy_mode"))
  ∧ m !! "clusterExternalIP"
    = (if bool_decide (GetString d "eip" = "") then ext !! "clusterExternalIP"
       else Some (GetString d "eip")).
Proof.
  intros m ext. subst m. unfold resourceClusterExtendParamV3. fold ext.
  rewrite (GetOk_bool_insert d "multi_az" "clusterAZ" "multi_az" ext).
  rewrite (GetOk_string_insert d "kube_proxy_mode" "kubeProxyMode").
  rewrite (GetOk_string_insert d "eip" "clusterExternalIP").
  destruct (GetBool d "multi_az"); repeat case_bool_decide;
    (split_and!; [intros k ? ? ?|..]); by simplify_map_eq.
Qed.

(** ** Refresh functions, whatever the cloud answers *)

(** X7. The create refresh of the VPC makes one get and leaves the record
    alone.  It reports an error exactly when the get fails or the VPC is
    DOWN; otherwise it hands back the VPC with the status ACTIVE when the
    remote status is OK, and the remote status itself in every other
    case. *)
Theorem waitForVpcActive_outcome (w : World) (vpcId : string) (st st' : State)
    (v : iface) (s : string) (oe : option error) :
  waitForVpcActive w vpcId st = Some ((v, s, oe), st') →
  rd st' = rd st
  ∧ calls st' = (calls st ++ [CallVpcGet vpcId])%list
  ∧ (is_Some oe ↔
       (∃ r e, onVpcGet w (calls st) vpcId = (r, Some e))
       ∨ (∃ n, onVpcGet w (calls st) vpcId = (Some n, None) ∧ vpcStatus n = "DOWN"))
  ∧ (oe = None →
     ∃ n, onVpcGet w (calls st) vpcId = (Some n, None)
          ∧ v = ifaceVpc (Some n)
          ∧ s = if bool_decide (vpcStatus n = "OK") then "ACTIVE" else vpcStatus n).
Proof.
  unfold waitForVpcActive. rewrite bind_call.
  destruct (onVpcGet w (calls st) vpcId) as [[n|] [e|]]; cbn [deref]; try done.
  - intros [= <- <- <- <-]. split_and!; [done|done| |done].
    split; [intros _; left; by eexists _, _|done].
  - rewrite bind_ret. repeat case_bool_decide; intros [= <- <- <- <-];
      (split_and!; [done|done| |]).
    + split; [by intros []|]. intros [(? & ? & ?)|(n' & [= <-] & ?)]; congruence.
    + intros _. exists n. by rewrite bool_decide_eq_true_2.
    + split; [intros _; right; by exists n|done].
    + done.
    + split; [by intros []|]. intros [(? & ? & ?)|(n' & [= <-] & ?)]; congruence.
    + intros _. exists n. by rewrite bool_decide_eq_false_2.
  - intros [= <- <- <- <-]. split_and!; [done|done| |done].
    split; [intros _; left; by eexists _, _|done].
Qed.

Lemma waitForVpcActive_outcome_witness :
  ∃ n, onVpcGet healthyWorld [] "vpc-1" = (Some n, None)
       ∧ ifaceVpc (Some vpcOk) = ifaceVpc (Some n)
       ∧ "ACTIVE" = if bool_decide (vpcStatus n = "OK") then "ACTIVE" else vpcStatus n.
Proof.
  exact (proj2 (proj2 (proj2
           (waitForVpcActive_outcome healthyWorld "vpc-1" (startState emptyData)
              (mkState emptyData [CallVpcGet "vpc-1"])
              (ifaceVpc (Some vpcOk)) "ACTIVE" None eq_refl))) eq_refl).
Defined.

(** X8. The delete refresh of the VPC always returns, whatever pointer the
    get hands back: it never reads the VPC.  Its status is ACTIVE or
    DELETED, DELETED never comes with an error, and an error comes out
    exactly when the get fails with something other than a 404, or the
    removal call fails with something other than a 404 or a 409. *)
Theorem waitForVpcDelete_total (w : World) (vpcId : string) (st : State) :
  ∃ r s oe st',
    waitForVpcDelete w vpcId st = Some ((ifaceVpc r, s, oe), st')
    ∧ fst (onVpcGet w (calls st) vpcId) = r
    ∧ (s = "ACTIVE" ∨ (s = "DELETED" ∧ oe = None))
    ∧ (is_Some oe ↔
         (∃ e, onVpcGet w (calls st) vpcId = (r, Some e) ∧ isErrDefault404 e = false)
         ∨ (onVpcGet w (calls st) vpcId = (r, None)
            ∧ ∃ e, onVpcDelete w (calls st ++ [CallVpcGet vpcId]) vpcId = Some e
                   ∧ isErrDefault404 e = false
                   ∧ e ≠ ErrUnexpectedResponseCode 409)).
Proof.
  unfold waitForVpcDelete. rewrite bind_call.
  destruct (onVpcGet w (calls st) vpcId) as [r [e|]] eqn:Hget.
  - destruct (isErrDefault404 e) eqn:H404; eexists r, _, _, _;
      (split_and!; [reflexivity|done|auto|]).
    + split; [by intros []|]. intros [(e' & [= <-] & ?)|[[=] _]]. congruence.
    + split; [|done]. intros _. left. by exists e.
  - rewrite bind_call. cbn [rd calls].
    destruct (onVpcDelete w (calls st ++ [CallVpcGet vpcId]) vpcId) as [e|] eqn:Hdel.
    + destruct (isErrDefault404 e) eqn:H404.
      { eexists r, _, _, _. split_and!; [reflexivity|done|auto|].
        split; [by intros []|]. intros [(? & [=] & _)|(_ & e' & [= <-] & ? & _)]. congruence. }
      destruct e as [b|a|m|f l|f l c|l|s0 l]; cbn [asErrUnexpectedResponseCode];
        try (eexists r, _, _, _; split_and!; [reflexivity|done|auto|];
             split; [intros _; right; split; [done|]; eexists; by split_and!|done]).
      case_bool_decide as Ha.
      * subst a. eexists r, _, _, _. split_and!; [reflexivity|done|auto|].
        split; [by intros []|]. intros [(? & [=] & _)|(_ & e' & [= <-] & _ & Hne)]. done.
      * eexists r, _, _, _. split_and!; [reflexivity|done|auto|].
        split; [|done]. intros _. right. split; [done|]. eexists. split_and!; [done..|].
        congruence.
    + eexists r, _, _, _. split_and!; [reflexivity|done|auto|].
      split; [by intros []|]. intros [(? & [=] & _)|(_ & e' & [=] & _)].
Qed.

(** ** Read, answer by answer *)

Lemma vpcRead_run w st :
  resourceVirtualPrivateCloudV1Read w st =
    let id := Id (rd st) in
    match clientErr w NetworkingV1 with
    | Some e => Some (Some (ErrorfWrap "Error creating Huaweicloud Vpc client: %s" [] e), st)
    | None =>
        let calls1 := (calls st ++ [CallVpcGet id])%list in
        match onVpcGet w (calls st) id with
        | (_, Some e) =>
            if isErrDefault404 e then Some (None, mkState (cleared (rd st)) calls1)
            else Some (Some (ErrorfWrap "Error retrieving Huaweicloud Vpc: %s" [] e),
                       mkState (rd st) calls1)
        | (None, None) => None
        | (Some n, None) =>
            let st2 := vpcFieldsWritten w st n in
            match clientErr w NetworkingV2 with
            | Some e =>
                Some (Some (ErrorfWrap "Error creating Huaweicloud vpc client: %s" [] e), st2)
            | None =>
                let st3 := mkState (rd st2) (calls st2 ++ [CallTagsGet id]) in
                match onTagsGet w (calls st2) id with
                | (_, Some e) =>
                    if isErrDefault404 e then Some (None, st3)
                    else Some (Some (ErrorfWrap "Error fetching HuaweiCloud VPC %s tags: %s"
                                                [id] e), st3)
                | (None, None) => None
                | (Some rt, None) => Some (None, vpcTagsWritten w st n rt)
                end
            end
        end
    end.
Proof.
  unfold resourceVirtualPrivateCloudV1Read.
  destruct (clientErr w NetworkingV1) as [e|]; [done|].
  repeat run_bind.
  destruct (onVpcGet w (calls st) (Id (rd st))) as [[n|] [e|]];
    [by destruct (isErrDefault404 e)| |by destruct (isErrDefault404 e)|done].
  repeat run_bind. cbn zeta.
  destruct (clientErr w NetworkingV2) as [e|]; [done|].
  repeat run_bind. unfold vpcFieldsWritten. cbn [rd calls Id attrs changed].
  destruct (onTagsGet w _ (Id (rd st))) as [[rt|] [e|]];
    [by destruct (isErrDefault404 e)| |by destruct (isErrDefault404 e)|done].
  by repeat run_bind.
Qed.

Lemma clusterRead_run w st :
  resourceCCEClusterV3Read w st =
    let id := Id (rd st) in
    match clientErr w CceV3 with
    | Some e => Some (Some (ErrorfWrap "Error creating HuaweiCloud CCE client: %s" [] e), st)
    | None =>
        let calls1 := (calls st ++ [CallClusterGet id])%list in
        match onClusterGet w (calls st) id with
        | (_, Some e) =>
            if isErrDefault404 e then Some (None, mkState (cleared (rd st)) calls1)
            else Some (Some (ErrorfWrap "Error retrieving HuaweiCloud CCE: %s" [] e),
                       mkState (rd st) calls1)
        | (None, None) => None
        | (Some n, None) =>
            match onClusterGetCert w calls1 id with
            | (None, _) => None
            | (Some cert, _) => Some (None, clusterCertWritten w st n cert)
            end
        end
    end.
Proof.
  unfold resourceCCEClusterV3Read.
  destruct (clientErr w CceV3) as [e|]; [done|].
  repeat run_bind.
  destruct (onClusterGet w (calls st) (Id (rd st))) as [[n|] [e|]];
    [by destruct (isErrDefault404 e)| |by destruct (isErrDefault404 e)|done].
  repeat run_bind. cbn zeta.
  destruct (onClusterGetCert w _ (Id (rd st))) as [[cert|] oe]; [|done].
  by repeat run_bind.
Qed.

(** ** What Read changes and what it sends *)

(** X9. Read never changes the identity except to clear it, which it does
    only on a 404 from the get, returning no error and leaving every
    attribute as it was; the change set is never touched.  Holds for the
    cluster and for the VPC. *)
Theorem Read_keeps_or_clears_identity (w : World) (st st' : State) (res : option error) :
  (resourceCCEClusterV3Read w st = Some (res, st') →
   changed (rd st') = changed (rd st)
   ∧ (Id (rd st') = Id (rd st)
      ∨ (rd st' = cleared (rd st) ∧ res = None
         ∧ ∃ r e, onClusterGet w (calls st) (Id (rd st)) = (r, Some e)
                  ∧ isErrDefault404 e = true)))
  ∧ (resourceVirtualPrivateCloudV1Read w st = Some (res, st') →
     changed (rd st') = changed (rd st)
     ∧ (Id (rd st') = Id (rd st)
        ∨ (rd st' = cleared (rd st) ∧ res = None
           ∧ ∃ r e, onVpcGet w (calls st) (Id (rd st)) = (r, Some e)
                    ∧ isErrDefault404 e = true))).
Proof.
  split.
  - rewrite clusterRead_run. cbn zeta.
    destruct (clientErr w CceV3) as [e|]; [intros [= <- <-]; auto|].
    destruct (onClusterGet w (calls st) (Id (rd st))) as [[n|] [e|]] eqn:Hget;
      try destruct (isErrDefault404 e) eqn:H404; try done;
      try (intros [= <- <-]; split; [done|]; by left);
      try (intros [= <- <-]; split; [done|]; right; split_and!; [done|done|by eexists _, _]).
    destruct (onClusterGetCert w _ (Id (rd st))) as [[cert|] oe]; [|done].
    intros [= <- <-]. split; [done|by left].
  - rewrite vpcRead_run. cbn zeta.
    destruct (clientErr w NetworkingV1) as [e|]; [intros [= <- <-]; auto|].
    destruct (onVpcGet w (calls st) (Id (rd st))) as [[n|] [e|]] eqn:Hget;
      try destruct (isErrDefault404 e) eqn:H404; try done;
      try (intros [= <- <-]; split; [done|]; by left);
      try (intros [= <- <-]; split; [done|]; right; split_and!; [done|done|by eexists _, _]).
    destruct (clientErr w NetworkingV2) as [e|]; [intros [= <- <-]; split; [done|by left]|].
    destruct (onTagsGet w _ (Id (rd st))) as [[rt|] [e|]];
      try destruct (isErrDefault404 e); try done;
      intros [= <- <-]; (split; [done|by left]).
Qed.

Lemma Read_keeps_or_clears_identity_witness :
  let st := startState (mkResourceData "vpc-1" (<["name" := VString "net"]> ∅) ∅) in
  let st' := mkState (cleared (rd st)) [CallVpcGet "vpc-1"] in
  changed (rd st') = changed (rd st)
  ∧ (Id (rd st') = Id (rd st)
     ∨ (rd st' = cleared (rd st) ∧ @None error = None
        ∧ ∃ r e, onVpcGet goneWorld (calls st) (Id (rd st)) = (r, Some e)
                 ∧ isErrDefault404 e = true)).
Proof.
  intros st st'.
  exact (proj2 (Read_keeps_or_clears_identity goneWorld st st' None) eq_refl).
Defined.

Ltac all_calls :=
  repeat first [apply Forall_nil_2 | apply Forall_cons_2; [by auto|]].

(** X10. Read only reads: at most two requests, each a get of the resource or
    of what hangs on it (the tags of a VPC, the certificates of a
    cluster), all for the identity of the record. *)
Theorem Read_sends_gets_only (w : World) (st st' : State) (res : option error) :
  let id := Id (rd st) in
  (resourceCCEClusterV3Read w st = Some (res, st') →
   ∃ l, calls st' = (calls st ++ l)%list ∧ (length l ≤ 2)%nat
        ∧ Forall (λ c, c = CallClusterGet id ∨ c = CallClusterGetCert id) l)
  ∧ (resourceVirtualPrivateCloudV1Read w st = Some (res, st') →
     ∃ l, calls st' = (calls st ++ l)%list ∧ (length l ≤ 2)%nat
          ∧ Forall (λ c, c = CallVpcGet id ∨ c = CallTagsGet id) l).
Proof.
  intros id. split.
  - rewrite clusterRead_run. cbn zeta. fold id.
    destruct (clientErr w CceV3) as [e|].
    { intros [= <- <-]. exists []. rewrite app_nil_r. split_and!; [done|cbn; lia|done]. }
    destruct (onClusterGet w (calls st) id) as [[n|] [e|]];
      try destruct (isErrDefault404 e); try done;
      try (intros [= <- <-]; exists [CallClusterGet id];
           split_and!; [done|cbn; lia|all_calls]).
    destruct (onClusterGetCert w _ id) as [[cert|] oe]; [|done].
    intros [= <- <-]. exists [CallClusterGet id; CallClusterGetCert id].
    split_and!; [by cbn; rewrite <- app_assoc|cbn; lia|all_calls].
  - rewrite vpcRead_run. cbn zeta. fold id.
    destruct (clientErr w NetworkingV1) as [e|].
    { intros [= <- <-]. exists []. rewrite app_nil_r. split_and!; [done|cbn; lia|done]. }
    destruct (onVpcGet w (calls st) id) as [[n|] [e|]];
      try destruct (isErrDefault404 e); try done;
      try (intros [= <- <-]; exists [CallVpcGet id];
           split_and!; [done|cbn; lia|all_calls]).
    destruct (clientErr w NetworkingV2) as [e|].
    { intros [= <- <-]. exists [CallVpcGet id].
      split_and!; [done|cbn; lia|all_calls]. }
    destruct (onTagsGet w _ id) as [[rt|] [e|]];
      try destruct (isErrDefault404 e); try done;
      intros [= <- <-]; exists [CallVpcGet id; CallTagsGet id];
      (split_and!; [by cbn; rewrite <- app_assoc|cbn; lia|all_calls]).
Qed.

Lemma Read_sends_gets_only_witness :
  let st := startState (mkResourceData "vpc-1" ∅ ∅) in
  ∃ l, calls (vpcTagsWritten healthyWorld st vpcOk (mkResourceTags [mkResourceTag "env" "dev"]))
       = (calls st ++ l)%list
       ∧ (length l ≤ 2)%nat
       ∧ Forall (λ c, c = CallVpcGet "vpc-1" ∨ c = CallTagsGet "vpc-1") l.
Proof.
  intros st.
  refine (proj2 (Read_sends_gets_only healthyWorld st _ None) _).
  vm_compute. reflexivity.
Defined.

Lemma GetRegion_ext w d d' :
  attrs d !! "region" = attrs d' !! "region" → GetRegion w d = GetRegion w d'.
Proof. unfold GetRegion, GetOk. by intros ->. Qed.

(** X11. When the get and the tag fetch both answer, VPC Read returns no
    error and the record then mirrors the remote VPC: name, cidr, status,
    shared flag, routes and tags are the remote ones, the region is the
    record's own when it had one and the configured one otherwise, and
    the identity is unchanged.  When the tag fetch answers 404 instead,
    the same holds except that the tags key stays as it was. *)
Theorem vpcRead_reconciles (w : World) (st : State) (n : Vpc) :
  let id := Id (rd st) in
  clientErr w NetworkingV1 = None →
  clientErr w NetworkingV2 = None →
  onVpcGet w (calls st) id = (Some n, None) →
  ∀ tagsAnswer, onTagsGet w (calls st ++ [CallVpcGet id]) id = tagsAnswer →
  (match tagsAnswer with
   | (Some _, None) => True
   | (_, Some e) => isErrDefault404 e = true
   | _ => False
   end) →
  ∃ st', resourceVirtualPrivateCloudV1Read w st = Some (None, st')
         ∧ Id (rd st') = id
         ∧ attrs (rd st') !! "name" = Some (VString (vpcName n))
         ∧ attrs (rd st') !! "cidr" = Some (VString (vpcCIDR n))
         ∧ attrs (rd st') !! "status" = Some (VString (vpcStatus n))
         ∧ attrs (rd st') !! "shared" = Some (VBool (EnableSharedSnat n))
         ∧ attrs (rd st') !! "region" = Some (VString (GetRegion w (rd st)))
         ∧ attrs (rd st') !! "routes" = Some (VList (routeMap <$> Routes n))
         ∧ attrs (rd st') !! "tags"
           = match tagsAnswer with
             | (Some rt, None) => Some (VMap (tagsToMap w (Tags rt)))
             | _ => attrs (rd st) !! "tags"
             end.
Proof.
  intros id Hc1 Hc2 Hget tagsAnswer Htags Hok.
  rewrite vpcRead_run, Hc1. cbn zeta. fold id. rewrite Hget, Hc2.
  assert (Hreg : GetRegion w
                   (mkResourceData (Id (rd st))
                      (<["shared" := VBool (EnableSharedSnat n)]>
                         (<["status" := VString (vpcStatus n)]>
                            (<["cidr" := VString (vpcCIDR n)]>
                               (<["name" := VString (vpcName n)]> (attrs (rd st))))))
                      (changed (rd st)))
                 = GetRegion w (rd st)).
  { apply GetRegion_ext. cbn [attrs]. by rewrite !lookup_insert_ne. }
  unfold vpcFieldsWritten at 1. cbn [calls]. fold id. rewrite Htags.
  destruct tagsAnswer as [[rt|] [e|]]; try done; try rewrite Hok;
    eexists; (split; [reflexivity|]);
    unfold vpcTagsWritten, vpcFieldsWritten; cbn [rd Id attrs calls changed];
    rewrite Hreg; split_and!; by simplify_map_eq.
Qed.

Lemma vpcRead_reconciles_witness :
  ∃ st', resourceVirtualPrivateCloudV1Read healthyWorld
           (startState (mkResourceData "vpc-1" ∅ ∅)) = Some (None, st')
         ∧ attrs (rd st') !! "status" = Some (VString "OK")
         ∧ attrs (rd st') !! "region" = Some (VString "cn-north-1")
         ∧ attrs (rd st') !! "tags" = Some (VMap (<["env" := "dev"]> ∅)).
Proof.
  destruct (vpcRead_reconciles healthyWorld (startState (mkResourceData "vpc-1" ∅ ∅)) vpcOk
              eq_refl eq_refl eq_refl _ eq_refl I)
    as (st' & Hrun & _ & _ & _ & Hstatus & _ & Hregion & _ & Htags).
  exists st'. split_and!; [exact Hrun|exact Hstatus|exact Hregion|exact Htags].
Defined.

(** X12. When the get answers and a certificate object is handed back,
    cluster Read returns no error and the record then mirrors the remote
    cluster in all thirteen fields it copies; the region is the record's
    own when it had one and the configured one otherwise, and the
    identity is unchanged. *)
Theorem clusterRead_reconciles (w : World) (st : State) (n : Clusters)
    (cert : Certificate) (oe : option error) :
  let id := Id (rd st) in
  clientErr w CceV3 = None →
  onClusterGet w (calls st) id = (Some n, None) →
  onClusterGetCert w (calls st ++ [CallClusterGet id]) id = (Some cert, oe) →
  ∃ st', resourceCCEClusterV3Read w st = Some (None, st')
         ∧ Id (rd st') = id
         ∧ attrs (rd st') !! "name" = Some (VString (MetadataName n))
         ∧ attrs (rd st') !! "status" = Some (VString (StatusPhase n))
         ∧ attrs (rd st') !! "flavor_id" = Some (VString (SpecFlavor n))
         ∧ attrs (rd st') !! "cluster_version" = Some (VString (SpecVersion n))
         ∧ attrs (rd st') !! "cluster_type" = Some (VString (SpecType n))
         ∧ attrs (rd st') !! "description" = Some (VString (SpecDescription n))
         ∧ attrs (rd st') !! "billing_mode" = Some (VInt (SpecBillingMode n))
         ∧ attrs (rd st') !! "vpc_id" = Some (VString (HostVpcId n))
         ∧ attrs (rd st') !! "subnet_id" = Some (VString (HostSubnetId n))
         ∧ attrs (rd st') !! "highway_subnet_id" = Some (VString (HostHighwaySubnet n))
         ∧ attrs (rd st') !! "container_network_type" = Some (VString (ContainerMode n))
         ∧ attrs (rd st') !! "container_network_cidr" = Some (VString (ContainerCidr n))
         ∧ attrs (rd st') !! "authentication_mode" = Some (VString (AuthenticationMode n))
         ∧ attrs (rd st') !! "region" = Some (VString (GetRegion w (rd st))).
Proof.
  intros id Hc Hget Hcert.
  rewrite clusterRead_run, Hc. cbn zeta. fold id. rewrite Hget, Hcert.
  eexists. split; [reflexivity|].
  unfold clusterCertWritten, clusterFieldsWritten. cbn [rd Id attrs calls changed].
  erewrite GetRegion_ext; [|cbn [attrs]; by rewrite !lookup_insert_ne].
  split_and!; [done|by simplify_map_eq..].
Qed.

Lemma clusterRead_reconciles_witness :
  ∃ st', resourceCCEClusterV3Read healthyWorld
           (startState (mkResourceData "cce-1" ∅ ∅)) = Some (None, st')
         ∧ attrs (rd st') !! "status" = Some (VString "Available")
         ∧ attrs (rd st') !! "region" = Some (VString "cn-north-1").
Proof.
  destruct (clusterRead_reconciles healthyWorld (startState (mkResourceData "cce-1" ∅ ∅))
              (clusterIn "Available") sampleCertificate None eq_refl eq_refl eq_refl)
    as (st' & Hrun & _ & _ & Hstatus & H).
  exists st'. split_and!; [exact Hrun|exact Hstatus|].
  exact (proj2 (proj2 (proj2 (proj2 (proj2 (proj2 (proj2 (proj2 (proj2 (proj2
           (proj2 H))))))))))).
Defined.

(** ** Create, step by step *)

Lemma bind_WaitForState {B} conf (k : option error → M B) st r st' :
  waitLoop conf (Timeout conf) "" st = Some (r, st') →
  bind (WaitForState conf) k st = k r st'.
Proof. intros Hw. by apply bind_run. Qed.

Lemma vpcCreate_wait_frame w vpcId n last st r st' :
  waitLoop (vpcCreateConf w vpcId) n last st = Some (r, st') →
  rd st' = rd st
  ∧ ∃ l, calls st' = (calls st ++ l)%list ∧ Forall (λ c, c = CallVpcGet vpcId) l.
Proof.
  apply (waitLoop_frame (λ c, c = CallVpcGet vpcId)).
  intros st0 r0 st0' Hr. cbn [Refresh vpcCreateConf] in Hr.
  unfold waitForVpcActive in Hr. run_cases;
    (split; [done|]); exists [CallVpcGet vpcId]; (split; [done|]); by constructor.
Qed.

(** X13. VPC Create records the identity before it waits: when the create
    call has succeeded and the wait ends with an error, Create returns
    that error wrapped together with the id, and the record carries the
    id the cloud assigned, with its attributes untouched. *)
Theorem vpcCreate_wait_error_identity_set (w : World) (st : State)
    (n : Vpc) (e : error) (stw : State) :
  clientErr w NetworkingV1 = None →
  let createOpts := mkVpcCreateOpts (GetString (rd st) "name") (GetString (rd st) "cidr") in
  onVpcCreate w (calls st) createOpts = (Some n, None) →
  waitLoop (vpcCreateConf w (vpcID n)) (createPolls w) ""
           (mkState (mkResourceData (vpcID n) (attrs (rd st)) (changed (rd st)))
                    (calls st ++ [CallVpcCreate createOpts]))
    = Some (Some e, stw) →
  resourceVirtualPrivateCloudV1Create w st
    = Some (Some (ErrorfWrap "Error waiting for Vpc (%s) to become ACTIVE: %s" [vpcID n] e),
            stw)
  ∧ rd stw = mkResourceData (vpcID n) (attrs (rd st)) (changed (rd st)).
Proof.
  intros Hclient createOpts Hcreate Hwait. split.
  - unfold resourceVirtualPrivateCloudV1Create. rewrite Hclient.
    repeat run_bind. fold createOpts. rewrite Hcreate. repeat run_bind.
    by rewrite (bind_WaitForState (vpcCreateConf w (vpcID n)) _ _ _ _ Hwait).
  - by apply vpcCreate_wait_frame in Hwait as [-> _].
Qed.

Lemma vpcCreate_wait_error_identity_set_witness :
  ∃ e stw,
    resourceVirtualPrivateCloudV1Create failedCreateWorld (startState emptyData)
      = Some (Some e, stw)
    ∧ rd stw = mkResourceData "vpc-1" ∅ ∅.
Proof.
  eexists _, _.
  exact (vpcCreate_wait_error_identity_set failedCreateWorld (startState emptyData)
           vpcCreating (Errorf "Vpc status: '%s'" ["DOWN"])
           (mkState (mkResourceData "vpc-1" ∅ ∅)
                    [CallVpcCreate (mkVpcCreateOpts "" ""); CallVpcGet "vpc-1";
                     CallVpcGet "vpc-1"])
           eq_refl eq_refl eq_refl).
Defined.

(** X14. When the create call and the wait succeed, cluster Create sets the
    identity to the id the cloud assigned and ends as Read does from
    there: its outcome is Read's.  Until then it has sent the create
    request and gets only, and has written nothing to the record. *)
Theorem clusterCreate_then_Read (w : World) (st : State) (create : Clusters) (stw : State) :
  clientErr w CceV3 = None →
  let createOpts := clusterCreateOpts w (rd st) in
  onClusterCreate w (calls st) createOpts = (Some create, None) →
  waitLoop (clusterCreateConf w (MetadataId create)) (createPolls w) ""
           (mkState (rd st) (calls st ++ [CallClusterCreate createOpts]))
    = Some (None, stw) →
  resourceCCEClusterV3Create w st
    = resourceCCEClusterV3Read w
        (mkState (mkResourceData (MetadataId create) (attrs (rd st)) (changed (rd st)))
                 (calls stw))
  ∧ ∃ l, calls stw = (calls st ++ CallClusterCreate createOpts :: l)%list
         ∧ Forall (λ c, c = CallClusterGet (MetadataId create)) l.
Proof.
  intros Hclient createOpts Hcreate Hwait.
  pose proof (waitForCCEClusterActive_frame _ _ _ _ _ _ _ Hwait) as (Hrd & l & Hl & HP).
  cbn [rd calls] in Hrd, Hl. split.
  - unfold resourceCCEClusterV3Create. rewrite Hclient.
    repeat run_bind. fold createOpts. rewrite Hcreate. repeat run_bind.
    rewrite (bind_WaitForState (clusterCreateConf w (MetadataId create)) _ _ _ _ Hwait).
    rewrite bind_SetId. by rewrite Hrd.
  - exists l. split; [|done]. by rewrite Hl, <- app_assoc.
Qed.

Lemma clusterCreate_then_Read_witness :
  let stw := mkState emptyData
                     [CallClusterCreate (clusterCreateOpts healthyWorld emptyData);
                      CallClusterGet "cce-1"] in
  resourceCCEClusterV3Create healthyWorld (startState emptyData)
  = resourceCCEClusterV3Read healthyWorld
      (mkState (mkResourceData "cce-1" ∅ ∅) (calls stw)).
Proof.
  intros stw.
  exact (proj1 (clusterCreate_then_Read healthyWorld (startState emptyData)
                  (clusterIn "Creating") stw eq_refl eq_refl eq_refl)).
Defined.

(** X15. After a successful create call and wait, VPC Create sends the tags
    only when the record has some: with no tags it goes straight to Read;
    with tags it sends one tag request and then runs Read, unless that
    request fails, in which case it returns the error wrapped, without
    reading back, and the identity stays set. *)
Theorem vpcCreate_tags_then_Read (w : World) (st : State) (n : Vpc) (stw : State) :
  clientErr w NetworkingV1 = None →
  let createOpts := mkVpcCreateOpts (GetString (rd st) "name") (GetString (rd st) "cidr") in
  onVpcCreate w (calls st) createOpts = (Some n, None) →
  waitLoop (vpcCreateConf w (vpcID n)) (createPolls w) ""
           (mkState (mkResourceData (vpcID n) (attrs (rd st)) (changed (rd st)))
                    (calls st ++ [CallVpcCreate createOpts]))
    = Some (None, stw) →
  let tagRaw := GetMap (rd st) "tags" in
  let taglist := expandResourceTags w tagRaw in
  let st4 := mkState (rd stw) (calls stw ++ [CallTagsCreate (vpcID n) taglist]) in
  Id (rd stw) = vpcID n
  ∧ (size tagRaw = 0%nat →
     resourceVirtualPrivateCloudV1Create w st = resourceVirtualPrivateCloudV1Read w stw)
  ∧ ((0 < size tagRaw)%nat →
     clientErr w NetworkingV2 = None →
     resourceVirtualPrivateCloudV1Create w st =
       match onTagsCreate w (calls stw) (vpcID n) taglist with
       | Some e =>
           Some (Some (ErrorfWrap "Error setting tags of VirtualPrivateCloud %q: %s"
                                  [vpcID n] e), st4)
       | None => resourceVirtualPrivateCloudV1Read w st4
       end).
Proof.
  intros Hclient createOpts Hcreate Hwait tagRaw taglist st4.
  pose proof (vpcCreate_wait_frame _ _ _ _ _ _ _ Hwait) as (Hrd & _). cbn [rd] in Hrd.
  assert (Hrun : resourceVirtualPrivateCloudV1Create w st =
                 orElse
                   (if bool_decide (0 < size tagRaw)%nat then
                      match clientErr w NetworkingV2 with
                      | Some e =>
                          ret (Some (ErrorfWrap "Error creating Huaweicloud vpc client: %s"
                                                [] e))
                      | None =>
                          let! tagErr := call (CallTagsCreate (vpcID n) taglist)
                                              (λ h, onTagsCreate w h (vpcID n) taglist) in
                          match tagErr with
                          | Some e =>
                              ret (Some (ErrorfWrap
                                           "Error setting tags of VirtualPrivateCloud %q: %s"
                                           [vpcID n] e))
                          | None => ret None
                          end
                      end
                    else ret None)
                   (resourceVirtualPrivateCloudV1Read w) stw).
  { unfold resourceVirtualPrivateCloudV1Create. rewrite Hclient.
    repeat run_bind. fold createOpts. rewrite Hcreate. repeat run_bind.
    rewrite (bind_WaitForState (vpcCreateConf w (vpcID n)) _ _ _ _ Hwait).
    rewrite bind_getData. unfold tagRaw, taglist, GetMap. by rewrite Hrd. }
  rewrite Hrun. clear Hrun. split_and!.
  - by rewrite Hrd.
  - intros Hsize. rewrite bool_decide_eq_false_2 by lia. done.
  - intros Hsize Hc2. rewrite bool_decide_eq_true_2 by done. rewrite Hc2.
    unfold orElse, bind, call. cbn [rd calls]. fold st4.
    by destruct (onTagsCreate w (calls stw) (vpcID n) taglist).
Qed.

Lemma vpcCreate_tags_then_Read_witness :
  let stw := mkState (mkResourceData "vpc-1" ∅ ∅)
                     [CallVpcCreate (mkVpcCreateOpts "" ""); CallVpcGet "vpc-1"] in
  resourceVirtualPrivateCloudV1Create healthyWorld (startState emptyData)
  = resourceVirtualPrivateCloudV1Read healthyWorld stw.
Proof.
  intros stw.
  exact (proj1 (proj2 (vpcCreate_tags_then_Read healthyWorld (startState emptyData)
                         vpcCreating stw eq_refl eq_refl eq_refl)) eq_refl).
Defined.

(** ** Update, when it fails or has nothing to send *)

(** X16. A failed update call ends Update at once: the error comes back
    wrapped, nothing is read back and the record is left as it was.  The
    same holds when the VPC update went through but the tag update that
    follows fails: the first request is not undone.  And with nothing
    changed, Update still sends its request, with an empty body, and
    reads back. *)
Theorem Update_failure_or_no_change (w : World) (st : State) (e : error) :
  let d := rd st in
  let id := Id d in
  (clientErr w CceV3 = None →
   ((∃ r, onClusterUpdate w (calls st) id (clusterUpdateOpts d) = (r, Some e)) →
    resourceCCEClusterV3Update w st
    = Some (Some (ErrorfWrap "Error updating HuaweiCloud CCE: %s" [] e),
            mkState d (calls st ++ [CallClusterUpdate id (clusterUpdateOpts d)])))
   ∧ (changed d = ∅ →
      (∃ r, onClusterUpdate w (calls st) id (mkClusterUpdateOpts "") = (r, None)) →
      resourceCCEClusterV3Update w st
      = resourceCCEClusterV3Read w
          (mkState d (calls st ++ [CallClusterUpdate id (mkClusterUpdateOpts "")]))))
  ∧ (clientErr w NetworkingV1 = None →
     ((∃ r, onVpcUpdate w (calls st) id (vpcUpdateOpts d) = (r, Some e)) →
      resourceVirtualPrivateCloudV1Update w st
      = Some (Some (ErrorfWrap "Error updating Huaweicloud Vpc: %s" [] e),
              mkState d (calls st ++ [CallVpcUpdate id (vpcUpdateOpts d)])))
     ∧ ((∃ r, onVpcUpdate w (calls st) id (vpcUpdateOpts d) = (r, None)) →
        HasChange d "tags" = true →
        clientErr w NetworkingV2 = None →
        onTagsUpdate w (calls st ++ [CallVpcUpdate id (vpcUpdateOpts d)]) d = Some e →
        resourceVirtualPrivateCloudV1Update w st
        = Some (Some (ErrorfWrap "Error updating tags of VPC %s: %s" [id] e),
                mkState d ((calls st ++ [CallVpcUpdate id (vpcUpdateOpts d)])
                             ++ [CallTagsUpdate id])))
     ∧ (changed d = ∅ →
        (∃ r, onVpcUpdate w (calls st) id (mkVpcUpdateOpts "" "") = (r, None)) →
        resourceVirtualPrivateCloudV1Update w st
        = resourceVirtualPrivateCloudV1Read w
            (mkState d (calls st ++ [CallVpcUpdate id (mkVpcUpdateOpts "" "")])))).
Proof.
  intros d id.
  assert (Hno : changed d = ∅ → ∀ k, HasChange d k = false).
  { intros Hc k. unfold HasChange. rewrite Hc. by apply bool_decide_eq_false_2. }
  split; intros Hclient.
  - split.
    + intros [r Hupd]. unfold resourceCCEClusterV3Update. rewrite Hclient.
      repeat run_bind. fold d id. by rewrite Hupd.
    + intros Hc [r Hupd]. unfold resourceCCEClusterV3Update. rewrite Hclient.
      repeat run_bind. fold d id. unfold clusterUpdateOpts.
      rewrite (Hno Hc). by rewrite Hupd.
  - split_and!.
    + intros [r Hupd]. unfold resourceVirtualPrivateCloudV1Update. rewrite Hclient.
      repeat run_bind. fold d id. by rewrite Hupd.
    + intros [r Hupd] Htag Hc2 Htags. unfold resourceVirtualPrivateCloudV1Update.
      rewrite Hclient. repeat run_bind. fold d id. rewrite Hupd, Htag, Hc2.
      unfold orElse, bind, call. cbn [rd calls]. fold d id. by rewrite Htags.
    + intros Hc [r Hupd]. unfold resourceVirtualPrivateCloudV1Update. rewrite Hclient.
      repeat run_bind. fold d id. unfold vpcUpdateOpts.
      rewrite !(Hno Hc). cbn [vuName vuCIDR]. by rewrite Hupd.
Qed.

Lemma Update_failure_or_no_change_witness :
  resourceVirtualPrivateCloudV1Update healthyWorld (startState (mkResourceData "vpc-1" ∅ ∅))
  = resourceVirtualPrivateCloudV1Read healthyWorld
      (mkState (mkResourceData "vpc-1" ∅ ∅)
               [CallVpcUpdate "vpc-1" (mkVpcUpdateOpts "" "")]).
Proof.
  exact (proj2 (proj2 (proj2
           (Update_failure_or_no_change healthyWorld
              (startState (mkResourceData "vpc-1" ∅ ∅)) unreachable) eq_refl))
           eq_refl (ex_intro _ None eq_refl)).
Defined.

(** ** Delete, at the edges *)

Lemma Delete_identity_witness :
  let st := startState (mkResourceData "cce-1" (<["name" := VString "k8s"]> ∅) ∅) in
  let stx := mkState (mkResourceData "" (<["name" := VString "k8s"]> ∅) ∅)
                     [CallClusterDelete "cce-1"; CallClusterGet "cce-1";
                      CallClusterGet "cce-1"; CallClusterGet "cce-1"] in
  resourceCCEClusterV3Delete busyDeleteWorld st = Some (None, stx)
  ∧ rd stx = mkResourceData "" (attrs (rd st)) (changed (rd st)).
Proof.
  intros st stx.
  assert (Hrun : resourceCCEClusterV3Delete busyDeleteWorld st = Some (None, stx))
    by (vm_compute; reflexivity).
  split; [exact Hrun|].
  exact (proj1 (Delete_identity busyDeleteWorld st None stx) eq_refl Hrun).
Defined.

(** X18. Deleting what is already gone: the VPC handler finds out with its
    first get, makes no removal call, clears the identity and returns no
    error.  The cluster handler sends its removal call first, and any
    error of that call, a 404 included, is returned wrapped, with no poll
    and with the identity kept. *)
Theorem Delete_when_already_gone (w : World) (st : State) (e : error) :
  let id := Id (rd st) in
  (clientErr w NetworkingV1 = None →
   (0 < deletePolls w)%nat →
   (∃ r, onVpcGet w (calls st) id = (r, Some e)) →
   isErrDefault404 e = true →
   resourceVirtualPrivateCloudV1Delete w st
   = Some (None, mkState (cleared (rd st)) (calls st ++ [CallVpcGet id])))
  ∧ (clientErr w CceV3 = None →
     onClusterDelete w (calls st) id = Some e →
     resourceCCEClusterV3Delete w st
     = Some (Some (ErrorfWrap "Error deleting HuaweiCloud CCE Cluster: %s" [] e),
             mkState (rd st) (calls st ++ [CallClusterDelete id]))).
Proof.
  intros id. split.
  - intros Hclient Hpolls [r Hget] H404. rewrite (vpcDelete_run _ _ Hclient). fold id.
    assert (Hwait : waitLoop (vpcDeleteConf w id) (Timeout (vpcDeleteConf w id)) "" st
                    = Some (None, mkState (rd st) (calls st ++ [CallVpcGet id]))).
    { apply waitLoop_success_iff. exists O, "", st, (ifaceVpc r), "DELETED".
      split_and!; [done|constructor| |cbn; set_solver].
      cbn [Refresh vpcDeleteConf]. unfold waitForVpcDelete.
      rewrite bind_call, Hget. by rewrite H404. }
    by rewrite (bind_WaitForState _ _ _ _ _ Hwait).
  - intros Hclient Hdel. rewrite (clusterDelete_run _ _ Hclient). cbn zeta.
    fold id. by rewrite Hdel.
Qed.

Lemma Delete_when_already_gone_witness :
  resourceVirtualPrivateCloudV1Delete goneWorld
    (startState (mkResourceData "vpc-1" (<["name" := VString "net"]> ∅) ∅))
  = Some (None, mkState (mkResourceData "" (<["name" := VString "net"]> ∅) ∅)
                        [CallVpcGet "vpc-1"]).
Proof.
  refine (proj1 (Delete_when_already_gone goneWorld
                   (startState (mkResourceData "vpc-1" (<["name" := VString "net"]> ∅) ∅))
                   (ErrDefault404 "vpc not found"))
                eq_refl _ (ex_intro _ None eq_refl) eq_refl).
  cbn. lia.
Defined.

(** ** When the client cannot be built *)

(** X19. Every handler of the two resources gives up at once when its client
    cannot be built: the error comes back wrapped, no request is sent and
    the record is left as it was. *)
Theorem client_error_sends_nothing (w : World) (st : State) (e : error) :
  (clientErr w CceV3 = Some e →
   resourceCCEClusterV3Create w st
   = Some (Some (ErrorfWrap "Unable to create HuaweiCloud CCE client : %s" [] e), st)
   ∧ resourceCCEClusterV3Read w st
     = Some (Some (ErrorfWrap "Error creating HuaweiCloud CCE client: %s" [] e), st)
   ∧ resourceCCEClusterV3Update w st
     = Some (Some (ErrorfWrap "Error creating HuaweiCloud CCE Client: %s" [] e), st)
   ∧ resourceCCEClusterV3Delete w st
     = Some (Some (ErrorfWrap "Error creating HuaweiCloud CCE Client: %s" [] e), st))
  ∧ (clientErr w NetworkingV1 = Some e →
     resourceVirtualPrivateCloudV1Create w st
     = Some (Some (ErrorfWrap "Error creating Huaweicloud vpc client: %s" [] e), st)
     ∧ resourceVirtualPrivateCloudV1Read w st
       = Some (Some (ErrorfWrap "Error creating Huaweicloud Vpc client: %s" [] e), st)
     ∧ resourceVirtualPrivateCloudV1Update w st
       = Some (Some (ErrorfWrap "Error creating Huaweicloud Vpc: %s" [] e), st)
     ∧ resourceVirtualPrivateCloudV1Delete w st
       = Some (Some (ErrorfWrap "Error creating Huaweicloud vpc: %s" [] e), st)).
Proof.
  split; intros Hclient.
  - unfold resourceCCEClusterV3Create, resourceCCEClusterV3Read,
      resourceCCEClusterV3Update, resourceCCEClusterV3Delete.
    by rewrite !Hclient.
  - unfold resourceVirtualPrivateCloudV1Create, resourceVirtualPrivateCloudV1Read,
      resourceVirtualPrivateCloudV1Update, resourceVirtualPrivateCloudV1Delete.
    by rewrite !Hclient.
Qed.

Lemma client_error_sends_nothing_witness :
  let w := withClientErr healthyWorld (λ _, Some (ErrUpstream "no credentials")) in
  let st := startState (mkResourceData "cce-1" ∅ ∅) in
  resourceCCEClusterV3Delete w st
  = Some (Some (ErrorfWrap "Error creating HuaweiCloud CCE Client: %s" []
                           (ErrUpstream "no credentials")), st).
Proof.
  intros w st.
  exact (proj2 (proj2 (proj2
           (proj1 (client_error_sends_nothing w st (ErrUpstream "no credentials"))
                  eq_refl)))).
Defined.

(** ** What can end the wait of cluster Delete *)

Lemma waitLoop_error_kinds conf (Q : error → Prop) :
  (∀ st v s oe st', Refresh conf st = Some ((v, s, oe), st') →
                    (s ∈ Target conf ∨ s ∈ Pending conf) ∧ ∀ e, oe = Some e → Q e) →
  ∀ n last st e st', waitLoop conf n last st = Some (Some e, st') →
                     (∃ s, e = TimeoutError s) ∨ Q e.
Proof.
  intros Hstep. induction n as [|n IH]; intros last st e st'.
  - intros [= <- <-]. left. by eexists.
  - cbn [waitLoop]. unfold bind at 1.
    destruct (Refresh conf st) as [[[[v s] oe] st1]|] eqn:Hr; [|done].
    destruct (Hstep _ _ _ _ _ Hr) as [Hs HQ].
    destruct oe as [e0|]; [intros [= <- <-]; right; by apply HQ|].
    case_bool_decide as Ht; [done|].
    case_bool_decide as Hp; [apply IH|]. by destruct Hs.
Qed.

(** X20. The delete refresh of the cluster never reports an error and never
    a status outside Deleted, Deleting and Available.  So once the
    removal call has gone through, no answer of the cloud can make
    cluster Delete fail: the only error its wait can end with is the
    timeout. *)
Theorem clusterDelete_fails_only_by_timeout (w : World) (st stx : State) (e0 : error) :
  clientErr w CceV3 = None →
  onClusterDelete w (calls st) (Id (rd st)) = None →
  resourceCCEClusterV3Delete w st = Some (Some e0, stx) →
  ∃ s, e0 = ErrorfWrap "Error deleting HuaweiCloud CCE cluster: %s" [] (TimeoutError s).
Proof.
  intros Hclient Hdel. rewrite (clusterDelete_run _ _ Hclient). cbn zeta. rewrite Hdel.
  intros (e & Hw & ->)%wait_then_clear_error.
  apply (waitLoop_error_kinds _ (λ _, False)) in Hw as [[s ->]|[]]; [by exists s|].
  intros st0 v s oe st0' Hr. cbn [Refresh clusterDeleteConf] in Hr.
  unfold waitForCCEClusterDelete in Hr. cbn [Target Pending clusterDeleteConf].
  run_cases; (split; [set_solver|done]).
Qed.

Lemma clusterDelete_fails_only_by_timeout_witness :
  let w := scriptedWorld 2 failing failing (λ _, failing) (λ _, None) failing failing
             (λ _, (Some (clusterIn "Available"), Some (ErrUpstream "502 Bad Gateway")))
             failing None in
  let st := startState (mkResourceData "cce-1" ∅ ∅) in
  ∃ s, ErrorfWrap "Error deleting HuaweiCloud CCE cluster: %s" [] (TimeoutError "Available")
       = ErrorfWrap "Error deleting HuaweiCloud CCE cluster: %s" [] (TimeoutError s).
Proof.
  intros w st.
  refine (clusterDelete_fails_only_by_timeout w st
            (mkState (rd st) [CallClusterDelete "cce-1"; CallClusterGet "cce-1";
                              CallClusterGet "cce-1"])
            _ eq_refl eq_refl _).
  vm_compute. reflexivity.
Defined.
